(** * Crawl_for_Nature.py: a shallow embedding and its properties

    The script crawls one Nature collection page, finds the articles listed
    there, extracts up to three download links per article and saves the
    linked files.  The development follows the script top-down:

    - [Py]: the Python string operations the script uses;
    - [Bs4]: the part of a BeautifulSoup document tree the script reads;
    - [Http]: the session of [create_session_with_retries], that is the
      urllib3 [Retry] loop driven by the configuration of lines 42-47;
    - [Os]: [os.path.join], [os.makedirs], [os.path.exists], [open];
    - [Crawler]: [sanitize_filename], [get_all_download_links],
      [download_file] and [main], in a state-and-exception monad that also
      records the observable events (requests, log records, pauses). *)

From Stdlib Require Import ZArith NArith Ascii String List Lia.
From stdpp Require Import base option list gmap.

Open Scope list_scope.
Set Warnings "-register-all".

(** ** Python strings *)

(** A Python [str] is a sequence of Unicode code points. *)
Abbreviation str := (list N).

Module Py.

(** A literal of the source, written as a Rocq string of ASCII characters. *)
Definition lit (s : string) : str :=
  List.map N_of_ascii (list_ascii_of_string s).

(** [str.isspace] on one code point, which is also what [\s] matches in a
    [str] pattern. *)
Definition isspace (c : N) : bool :=
  ((9 <=? c) && (c <=? 13) || (28 <=? c) && (c <=? 32)
   || (c =? 133) || (c =? 160) || (c =? 5760)
   || (8192 <=? c) && (c <=? 8202)
   || (c =? 8232) || (c =? 8233) || (c =? 8239) || (c =? 8287)
   || (c =? 12288))%N.

Definition mem (c : N) (cs : str) : bool := existsb (N.eqb c) cs.

Fixpoint lstrip_by (p : N -> bool) (s : str) : str :=
  match s with
  | [] => []
  | c :: r => if p c then lstrip_by p r else s
  end.

Definition strip_by (p : N -> bool) (s : str) : str :=
  rev (lstrip_by p (rev (lstrip_by p s))).

(** [s.strip()] *)
Definition strip (s : str) : str := strip_by isspace s.

(** [s.strip(chars)] *)
Definition strip_chars (chars s : str) : str :=
  strip_by (fun c => mem c chars) s.

(** [s.split(sep)] for a one-character separator: never an empty list. *)
Fixpoint split (sep : N) (s : str) : list str :=
  match s with
  | [] => [[]]
  | c :: r =>
      if (c =? sep)%N then [] :: split sep r
      else match split sep r with
           | h :: t => (c :: h) :: t
           | [] => [[c]]
           end
  end.


(** [l[-1]] and [l[0]] on the result of a [split]. *)
Definition last_item (l : list str) : str := List.last l [].
Definition first_item (l : list str) : str := List.hd [] l.

(** [s.startswith(p)] *)
Fixpoint startswith (p s : str) : bool :=
  match p, s with
  | [], _ => true
  | _ :: _, [] => false
  | a :: p', b :: s' => (a =? b)%N && startswith p' s'
  end.

(** [s.endswith(p)] *)
Definition endswith (p s : str) : bool := startswith (rev p) (rev s).

(** [sub in s] *)
Fixpoint contains (sub s : str) : bool :=
  startswith sub s ||
  match s with
  | [] => false
  | _ :: r => contains sub r
  end.

(** [re.sub(r'[...]', repl, s)] for a character class and a one-character
    replacement. *)
Definition sub_class (class : str) (repl : N) (s : str) : str :=
  List.map (fun c => if mem c class then repl else c) s.

(** [re.sub(r'\s+', ' ', s)]: every maximal run of whitespace becomes one
    space.  [in_run] tells that the previous character was whitespace. *)
Fixpoint sub_spaces (in_run : bool) (s : str) : str :=
  match s with
  | [] => []
  | c :: r =>
      if isspace c
      then (if in_run then sub_spaces true r else 32%N :: sub_spaces true r)
      else c :: sub_spaces false r
  end.

End Py.

(** ** sanitize_filename (lines 65-69) *)

(** The characters of the class of line 67, by code point: less-than,
    greater-than, colon, double quote, slash, backslash, bar, question
    mark, star. *)
Definition illegal_chars : str := [60; 62; 58; 34; 47; 92; 124; 63; 42]%N.

Definition underscore : N := 95%N.

Definition sanitize_filename (name : str) : str :=
  let name := Py.sub_class illegal_chars underscore name in
  let name := Py.strip (Py.sub_spaces false name) in
  take 180 name.

(** ** BeautifulSoup document trees *)

Module Bs4.

(** A parsed page, with the two attributes the script reads: [class]
    (multi-valued) and [href].  The [BeautifulSoup] object is the root
    [Tag]. *)
Inductive node :=
| NavigableString (s : str)
| Tag (name : str) (classes : list str) (href : option str)
      (contents : list node).

(** [tag.descendants]: every node below [n], in document order. *)
Fixpoint descendants (n : node) : list node :=
  match n with
  | NavigableString _ => []
  | Tag _ _ _ cs =>
      (fix go (l : list node) : list node :=
         match l with
         | [] => []
         | c :: r => c :: descendants c ++ go r
         end) cs
  end.

Definition is_named (names : list str) (n : node) : bool :=
  match n with
  | NavigableString _ => false
  | Tag nm _ _ _ => bool_decide (nm ∈ names)
  end.

Definition has_class (c : str) (n : node) : bool :=
  match n with
  | NavigableString _ => false
  | Tag _ cls _ _ => bool_decide (c ∈ cls)
  end.

Definition has_href (n : node) : bool :=
  match n with
  | Tag _ _ (Some _) _ => true
  | _ => false
  end.

(** [tag.get('href')]: [None] for a tag without the attribute. *)
Definition get_href (n : node) : option str :=
  match n with
  | Tag _ _ h _ => h
  | NavigableString _ => None
  end.

(** [root.find_all(names, class_=c)] *)
Definition find_all_class (names : list str) (c : str) (root : node)
  : list node :=
  List.filter (fun n => is_named names n && has_class c n) (descendants root).

(** [root.find(names, class_=c)] *)
Definition find_class (names : list str) (c : str) (root : node)
  : option node :=
  head (find_all_class names c root).

(** [root.find_all(name, href=True)] *)
Definition find_all_href (name : str) (root : node) : list node :=
  List.filter (fun n => is_named [name] n && has_href n) (descendants root).

(** [root.a], that is [root.find('a')] *)
Definition find_name (name : str) (root : node) : option node :=
  head (List.filter (is_named [name]) (descendants root)).

(** The text nodes below [n], in document order. *)
Definition strings (n : node) : list str :=
  omap (fun d => match d with NavigableString s => Some s | _ => None end)
       (descendants n).

(** [n.get_text()] *)
Definition get_text (n : node) : str := concat (strings n).

(** [n.get_text(strip=True)]: each text node is stripped on its own, the
    ones that become empty are dropped, the rest is joined. *)
Definition get_text_strip (n : node) : str :=
  concat (List.filter (fun s => negb (bool_decide (s = [])))
                      (List.map Py.strip (strings n))).

End Bs4.

(** ** Exceptions, events *)

(** The exception classes that reach the script.  The first four are
    subclasses of [requests.exceptions.RequestException]; [ValueError] is
    what [urllib.parse.urljoin] raises on a link it cannot parse. *)
Inductive exn :=
| RetryError
| ConnectionError
| HTTPError (status : Z)
| ChunkedEncodingError
| KeyError (key : str)
| ValueError
| FileNotFoundError
| FileExistsError
| NotADirectoryError
| IsADirectoryError.

Definition is_RequestException (e : exn) : bool :=
  match e with
  | RetryError | ConnectionError | HTTPError _ | ChunkedEncodingError => true
  | _ => false
  end.

Inductive level := INFO | WARNING | ERROR.

(** One constructor per logging call of the script, with the values its
    message interpolates. *)
Inductive message :=
| MsgStart (collection_name : str)                 (* line 140 *)
| MsgVisit (url : str)                             (* line 146 *)
| MsgCollectionFailed (url : str) (e : exn)        (* line 150 *)
| MsgNoArticles                                    (* line 158 *)
| MsgFound (count : nat)                           (* line 161 *)
| MsgParsing (url : str)                           (* line 73 *)
| MsgParseFailed (url : str) (e : exn)             (* line 101 *)
| MsgExists (local_filename : str)                 (* line 115 *)
| MsgDownloading (local_filename dest_folder : str) (* line 118 *)
| MsgDownloadFailed (url : str) (e : exn)          (* line 129 *)
| MsgNoLinks (title : str)                         (* line 179 *)
| MsgStartDownload (title : str)                   (* line 182 *)
| MsgUnknown (e : exn)                             (* line 191 *)
| MsgPause                                         (* line 195 *)
| MsgDone (collection_name : str).                 (* line 198 *)

(** What a run does that can be observed from outside: one [Request] per
    HTTP request put on the wire ([stream] as passed to [session.get]), one
    [Log] per log record, one [Sleep] per [time.sleep(random.uniform(lo,
    hi))]. *)
Inductive event :=
| Request (url : str) (stream : bool)
| Log (lvl : level) (msg : message)
| Sleep (lo hi : Z).

Definition is_request (e : event) : bool :=
  match e with Request _ _ => true | _ => false end.

(** The requests of [download_file] are the ones sent with [stream=True]
    (line 119); page fetches use the default. *)
Definition is_download_request (e : event) : bool :=
  match e with Request _ true => true | _ => false end.

Definition is_error_log (e : event) : bool :=
  match e with Log ERROR _ => true | _ => false end.

(** ** The session of create_session_with_retries (lines 34-63) *)

Module Http.

(** What the script reads of a response: the status, whether a
    [Retry-After] header came with it, the document that
    [BeautifulSoup(resp.text, 'html.parser')] builds from the body, and the
    body as [iter_content] delivers it: the chunks, and whether the stream
    breaks after the last of them. *)
Record response := {
  status_code : Z;
  retry_after : bool;
  soup : Bs4.node;
  chunks : list (list Byte.byte);
  truncated : bool
}.

(** One request on the wire either fails below HTTP (connection refused or
    reset, timeout) or is answered. *)
Inductive attempt :=
| ConnectionFailed
| Answer (r : response).

(** The remote side: what the [n]-th request of one [session.get(url)]
    call meets. *)
Definition network := str -> nat -> attempt.

(** The arguments given to [Retry] on lines 42-47. *)
Record Retry := {
  total : nat;
  status_forcelist : list Z;
  allowed_methods : list str;
  backoff_factor : Z
}.

Definition retry_strategy : Retry := {|
  total := 3;
  status_forcelist := [429; 500; 502; 503; 504]%Z;
  allowed_methods := [Py.lit "HEAD"; Py.lit "GET"; Py.lit "OPTIONS"];
  backoff_factor := 1
|}.

(** urllib3's [Retry.RETRY_AFTER_STATUS_CODES]. *)
Definition RETRY_AFTER_STATUS_CODES : list Z := [413; 429; 503]%Z.

(** [Retry.is_retry(method, status_code, has_retry_after)] of a [Retry]
    whose [total] is [left]. *)
Definition is_retry (r : Retry) (left : nat) (method : str) (status : Z)
    (has_retry_after : bool) : bool :=
  if negb (bool_decide (method ∈ allowed_methods r)) then false
  else if bool_decide (status ∈ status_forcelist r) then true
  else negb (left =? 0)%nat && has_retry_after
       && bool_decide (status ∈ RETRY_AFTER_STATUS_CODES).

(** The loop of urllib3's [urlopen] under [HTTPAdapter(max_retries=r)].
    [left] is the [total] of the [Retry] object in force and [n] the number
    of requests already sent.  After a failed request [Retry.increment]
    makes a new object with [total - 1] and raises [MaxRetryError] when that
    is negative, so when [left] is 0; requests turns the error into
    [RetryError] (too many bad statuses) or [ConnectionError].  The pauses
    between the requests are not part of the model. *)
Fixpoint urlopen (net : network) (r : Retry) (method url : str)
    (stream : bool) (left n : nat) : (exn + response) * list event :=
  let sent := Request url stream in
  match net url n with
  | ConnectionFailed =>
      match left with
      | 0 => (inl ConnectionError, [sent])
      | S left' =>
          let '(res, evs) := urlopen net r method url stream left' (S n) in
          (res, sent :: evs)
      end
  | Answer resp =>
      if is_retry r left method (status_code resp) (retry_after resp) then
        match left with
        | 0 => (inl RetryError, [sent])
        | S left' =>
            let '(res, evs) := urlopen net r method url stream left' (S n) in
            (res, sent :: evs)
        end
      else (inr resp, [sent])
  end.

(** What the adapter mounted on lines 50-54 does for one
    [session.get(url, stream=...)]: the requests it sends, and the answer it
    hands back or the exception it gives up with. *)
Definition get (net : network) (url : str) (stream : bool)
  : (exn + response) * list event :=
  urlopen net retry_strategy (Py.lit "GET") url stream
          (total retry_strategy) 0.

(** [resp.raise_for_status()] *)
Definition raise_for_status (resp : response) : exn + unit :=
  if ((400 <=? status_code resp) && (status_code resp <? 600))%Z
  then inl (HTTPError (status_code resp))
  else inr tt.

End Http.

(** ** The file system *)

Module Os.

(** A path names a node by its components.  Empty components and [.] are
    skipped; an absolute path starts with the component [/].  Symbolic
    links and [..] are not interpreted, every directory is writable and a
    name may have any length. *)
Inductive inode :=
| Dir
| File (data : list Byte.byte).

Abbreviation filesystem := (gmap (list str) inode).

Definition slash : N := 47%N.

Definition parts (p : str) : list str :=
  List.filter (fun c => negb (bool_decide (c = []))
                        && negb (bool_decide (c = Py.lit ".")))
              (Py.split slash p).

Definition key (p : str) : list str :=
  if Py.startswith [slash] p then [slash] :: parts p else parts p.

(** The current directory (no component) and the root are directories of
    every file system. *)
Definition node_at (fs : filesystem) (k : list str) : option inode :=
  if bool_decide (k = []) || bool_decide (k = [[slash]]) then Some Dir
  else fs !! k.

(** Path resolution from the directory [pre] along [rest]: every component
    before the last must be a directory. *)
Fixpoint walk (fs : filesystem) (pre rest : list str) : option inode :=
  match rest with
  | [] => node_at fs pre
  | c :: r =>
      match node_at fs pre with
      | Some Dir => walk fs (pre ++ [c]) r
      | _ => None
      end
  end.

(** [os.stat(p)], [None] when it fails. *)
Definition stat (fs : filesystem) (p : str) : option inode :=
  match p with
  | [] => None
  | _ =>
      match walk fs [] (key p) with
      | Some (File d) =>
          if Py.endswith [slash] p then None else Some (File d)
      | o => o
      end
  end.

(** [os.path.exists(p)] *)
Definition exists_ (fs : filesystem) (p : str) : bool :=
  bool_decide (is_Some (stat fs p)).

(** [os.path.join(a, b)] of posixpath. *)
Definition join (a b : str) : str :=
  if Py.startswith [slash] b then b
  else if bool_decide (a = []) || Py.endswith [slash] a then a ++ b
  else a ++ [slash] ++ b.

(** [os.makedirs] below the directory [pre]: the missing directories are
    made one by one, a regular file in the way is an error. *)
Fixpoint mkdirs (fs : filesystem) (pre rest : list str) : exn + filesystem :=
  match rest with
  | [] => inr fs
  | c :: r =>
      let here := pre ++ [c] in
      match node_at fs here with
      | Some Dir => mkdirs fs here r
      | Some (File _) =>
          inl (match r with [] => FileExistsError | _ => NotADirectoryError end)
      | None => mkdirs (<[here := Dir]> fs) here r
      end
  end.

(** [os.makedirs(name, exist_ok=True)] *)
Definition makedirs (fs : filesystem) (name : str) : exn + filesystem :=
  match name with
  | [] => inl FileNotFoundError
  | _ => mkdirs fs [] (key name)
  end.

(** [open(p, 'wb')]: the file is created, or emptied when it exists; the
    result holds the node the file object writes to. *)
Definition open_wb (fs : filesystem) (p : str)
  : exn + (filesystem * list str) :=
  match p with
  | [] => inl FileNotFoundError
  | _ =>
      let k := key p in
      if Py.endswith [slash] p then inl IsADirectoryError
      else match walk fs [] (removelast k) with
           | None => inl FileNotFoundError
           | Some (File _) => inl NotADirectoryError
           | Some Dir =>
               match node_at fs k with
               | Some Dir => inl IsADirectoryError
               | _ => inr (<[k := File []]> fs, k)
               end
           end
  end.

(** [f.write(chunk)] *)
Definition write (fs : filesystem) (k : list str) (chunk : list Byte.byte)
  : filesystem :=
  alter (fun i => match i with
                  | File d => File (d ++ chunk)
                  | Dir => Dir
                  end) k fs.

End Os.

(** ** The monad of the script: file system, exceptions, events *)

(** What a piece of the script leaves behind: its value or the exception it
    raised, the file system, and the events in the order they happened. *)
Record run (A : Type) := Run {
  result : exn + A;
  disk : Os.filesystem;
  events : list event
}.
Arguments Run {A} _ _ _.
Arguments result {A} _.
Arguments disk {A} _.
Arguments events {A} _.

Definition M (A : Type) : Type := Os.filesystem -> run A.

#[global] Instance M_ret : MRet M := fun A (a : A) fs => Run (inr a) fs [].

#[global] Instance M_bind : MBind M := fun A B (f : A -> M B) (m : M A) fs =>
  let r := m fs in
  match result r with
  | inl e => Run (inl e) (disk r) (events r)
  | inr a =>
      let r' := f a (disk r) in
      Run (result r') (disk r') (events r ++ events r')
  end.

(** [raise e] *)
Definition raise {A} (e : exn) : M A := fun fs => Run (inl e) fs [].

(** [try: body / except C as e: handler], where [catches] tells the
    instances of [C]. *)
Definition try_except {A} (body : M A) (catches : exn -> bool)
    (handler : exn -> M A) : M A := fun fs =>
  let r := body fs in
  match result r with
  | inl e =>
      if catches e then
        let r' := handler e (disk r) in
        Run (result r') (disk r') (events r ++ events r')
      else r
  | inr _ => r
  end.

(** [except Exception]: every class of [exn] derives from [Exception]. *)
Definition is_Exception (e : exn) : bool := true.

Definition emit (ev : event) : M unit := fun fs => Run (inr tt) fs [ev].

(** Line 22. *)
Definition LOG_FILE : str := Py.lit "collection_downloader.log".

(** [logging.info], [logging.warning] and [logging.error].  The handlers of
    lines 26-29 print the record and append it to [LOG_FILE], through a
    stream that the logging module opened when the script was loaded.  The
    content of that file is not followed: the record is kept as an event,
    and [disk] stands for the files other than [LOG_FILE]. *)
Definition log (lvl : level) (msg : message) : M unit := emit (Log lvl msg).

(** [time.sleep(random.uniform(lo, hi))] *)
Definition sleep_uniform (lo hi : Z) : M unit := emit (Sleep lo hi).

Definition lift_exn {A} (r : exn + A) : M A := fun fs => Run r fs [].

Definition makedirs (name : str) : M unit := fun fs =>
  match Os.makedirs fs name with
  | inl e => Run (inl e) fs []
  | inr fs' => Run (inr tt) fs' []
  end.

Definition path_exists (p : str) : M bool := fun fs =>
  Run (inr (Os.exists_ fs p)) fs [].

Definition open_wb (p : str) : M (list str) := fun fs =>
  match Os.open_wb fs p with
  | inl e => Run (inl e) fs []
  | inr (fs', f) => Run (inr f) fs' []
  end.

Definition write (f : list str) (chunk : list Byte.byte) : M unit := fun fs =>
  Run (inr tt) (Os.write fs f chunk) [].

(** [tag['href']] *)
Definition getitem_href (n : Bs4.node) : M str :=
  match Bs4.get_href n with
  | Some h => mret h
  | None => raise (KeyError (Py.lit "href"))
  end.

(** ** The script *)

Definition dot : N := 46%N.
Definition question_mark : N := 63%N.

(** Lines 109-112 of [download_file]. *)
Definition original_filename (url : str) : str :=
  Py.first_item (Py.split question_mark (Py.last_item (Py.split Os.slash url))).

Definition extension (url : str) : str :=
  let original_filename := original_filename url in
  if Py.mem dot original_filename
  then Py.last_item (Py.split dot original_filename)
  else Py.lit "download".

Definition local_filename (url file_prefix base_filename : str) : str :=
  file_prefix ++ base_filename ++ [dot] ++ extension url.

Definition local_path (url dest_folder file_prefix base_filename : str) : str :=
  Os.join dest_folder (local_filename url file_prefix base_filename).

(** Lines 137-138 and 170-173 of [main]. *)
Definition collection_url : str :=
  Py.lit "https://www.nature.com/collections/gxfyskqtkm".

Definition collection_name : str :=
  Py.lit "Nature Collection "
  ++ Py.last_item (Py.split Os.slash (Py.strip_chars [Os.slash] collection_url)).

Definition base_site : str := Py.lit "https://www.nature.com".

Definition article_folder (collection_name sanitized_title : str) : str :=
  Os.join collection_name sanitized_title.

Section Crawler.

(** The remote side, and [urllib.parse.urljoin]: the joined URL, or [None]
    for a link that makes it raise [ValueError]. *)
Variable net : Http.network.
Variable urljoin : str -> str -> option str.

(** [session.get(url, stream=stream)].  Without [stream=True] requests
    reads the whole body before it hands the response back, so a body that
    breaks off raises there.  The answer is handed back as it is: a
    redirect is not followed, and the URL is taken to be one that the
    session can send. *)
Definition session_get (url : str) (stream : bool) : M Http.response :=
  fun fs =>
    let '(res, evs) := Http.get net url stream in
    match res with
    | inl e => Run (inl e) fs evs
    | inr resp =>
        if negb stream && Http.truncated resp
        then Run (inl ChunkedEncodingError) fs evs
        else Run (inr resp) fs evs
    end.

Definition raise_for_status (resp : Http.response) : M unit :=
  lift_exn (Http.raise_for_status resp).

(** [urljoin(base, url)] as the script calls it. *)
Definition call_urljoin (base url : str) : M str :=
  match urljoin base url with
  | Some u => mret u
  | None => raise ValueError
  end.

(** The loops of lines 86-88, 90-92 and 94-96: the first tag that meets
    [cond] gives the link, and the loop ends there. *)
Fixpoint scan (cond : Bs4.node -> M bool) (kind article_url : str)
    (tags : list Bs4.node) (links : gmap str str) : M (gmap str str) :=
  match tags with
  | [] => mret links
  | a :: rest =>
      c ← cond a;
      if c : bool then
        h ← getitem_href a;
        u ← call_urljoin article_url h;
        mret (<[kind := u]> links)
      else scan cond kind article_url rest links
  end.

Definition pdf_cond (a : Bs4.node) : M bool :=
  if Py.contains (Py.lit "Download PDF") (Bs4.get_text a) then mret true
  else h ← getitem_href a; mret (Py.endswith (Py.lit ".pdf") h).

Definition supp_cond (a : Bs4.node) : M bool :=
  mret (Py.contains (Py.lit "Supplementary Information") (Bs4.get_text_strip a)).

Definition peer_cond (a : Bs4.node) : M bool :=
  mret (Py.contains (Py.lit "Peer Review File") (Bs4.get_text_strip a)).

Definition pdf_marker : str := Py.lit "c-pdf-download__link".

(** Lines 83-88: the [pdf] entry. *)
Definition pdf_link (article_url : str) (soup : Bs4.node)
    (all_a_tags : list Bs4.node) : M (gmap str str) :=
  match Bs4.find_class [Py.lit "a"] pdf_marker soup with
  | Some pdf_tag =>
      h ← getitem_href pdf_tag;
      u ← call_urljoin article_url h;
      mret (<[Py.lit "pdf" := u]> ∅)
  | None => scan pdf_cond (Py.lit "pdf") article_url all_a_tags ∅
  end.

(** Lines 81-96, on the parsed page. *)
Definition extract_links (article_url : str) (soup : Bs4.node)
  : M (gmap str str) :=
  let all_a_tags := Bs4.find_all_href (Py.lit "a") soup in
  links ← pdf_link article_url soup all_a_tags;
  links ← scan supp_cond (Py.lit "supp") article_url all_a_tags links;
  scan peer_cond (Py.lit "peer") article_url all_a_tags links.

(** Lines 71-103.  Of the calls in the [try], only [session.get] and
    [raise_for_status] raise a [RequestException], and they do before
    [links] gets its first entry, so the handler returns the empty dict. *)
Definition get_all_download_links (article_url : str) : M (gmap str str) :=
  log INFO (MsgParsing article_url);;
  try_except
    (resp ← session_get article_url false;
     raise_for_status resp;;
     links ← extract_links article_url (Http.soup resp);
     sleep_uniform 2 4;;
     mret links)
    is_RequestException
    (fun e => log ERROR (MsgParseFailed article_url e);; mret ∅).

(** The loop of lines 122-123; a stream that breaks raises after the chunks
    that arrived have been written. *)
Fixpoint write_all (f : list str) (chunks : list (list Byte.byte)) : M unit :=
  match chunks with
  | [] => mret tt
  | chunk :: rest => write f chunk;; write_all f rest
  end.

Definition iter_content_into (f : list str) (r : Http.response) : M unit :=
  write_all f (Http.chunks r);;
  if Http.truncated r then raise ChunkedEncodingError else mret tt.

(** Lines 105-130. *)
Definition download_file (url dest_folder file_prefix base_filename : str)
  : M bool :=
  makedirs dest_folder;;
  try_except
    (let local_filename := local_filename url file_prefix base_filename in
     let local_path := Os.join dest_folder local_filename in
     present ← path_exists local_path;
     if present : bool then
       log INFO (MsgExists local_filename);;
       mret true
     else
       log INFO (MsgDownloading local_filename dest_folder);;
       r ← session_get url true;
       raise_for_status r;;
       f ← open_wb local_path;
       iter_content_into f r;;
       sleep_uniform 3 6;;
       mret true)
    is_Exception
    (fun e => log ERROR (MsgDownloadFailed url e);; mret false).

(** Lines 183-188: one download per kind that is in the dict. *)
Definition download_kind (links : gmap str str) (kind folder file_prefix
    base_filename : str) : M unit :=
  match links !! kind with
  | Some url => download_file url folder file_prefix base_filename;; mret tt
  | None => mret tt
  end.

(** The body of the [try] of lines 165-188.  The value tells whether the
    body ran to its end ([true]) or left through [continue] ([false]). *)
Definition process_article (article : Bs4.node) : M bool :=
  match Bs4.find_class [Py.lit "h3"; Py.lit "h2"] (Py.lit "c-card__title")
                       article with
  | None => mret false
  | Some title_tag =>
      match Bs4.find_name (Py.lit "a") title_tag with
      | None => mret false
      | Some title_a =>
          let article_title_raw := Bs4.get_text_strip title_a in
          h ← getitem_href title_a;
          article_link ← call_urljoin base_site h;
          let sanitized_title := sanitize_filename article_title_raw in
          let article_folder := article_folder collection_name sanitized_title in
          download_links ← get_all_download_links article_link;
          if bool_decide (download_links = ∅) then
            log WARNING (MsgNoLinks article_title_raw);;
            mret false
          else
            log INFO (MsgStartDownload article_title_raw);;
            download_kind download_links (Py.lit "pdf") article_folder
                          (Py.lit "PDF_") sanitized_title;;
            download_kind download_links (Py.lit "supp") article_folder
                          (Py.lit "Supp_") sanitized_title;;
            download_kind download_links (Py.lit "peer") article_folder
                          (Py.lit "PeerReview_") sanitized_title;;
            mret true
      end
  end.

(** One round of the loop of lines 163-196. *)
Definition article_step (article : Bs4.node) : M unit :=
  finished ← try_except (process_article article) is_Exception
                        (fun e => log ERROR (MsgUnknown e);; mret false);
  if finished : bool then
    log INFO MsgPause;;
    sleep_uniform 8 15
  else mret tt.

Fixpoint for_articles (articles : list Bs4.node) : M unit :=
  match articles with
  | [] => mret tt
  | article :: rest => article_step article;; for_articles rest
  end.

(** Lines 145-151: the collection page, [None] after the [return] of the
    handler. *)
Definition fetch_collection : M (option Http.response) :=
  try_except
    (log INFO (MsgVisit collection_url);;
     resp ← session_get collection_url false;
     raise_for_status resp;;
     mret (Some resp))
    is_RequestException
    (fun e => log ERROR (MsgCollectionFailed collection_url e);; mret None).

(** Lines 153-155. *)
Definition find_articles (soup : Bs4.node) : list Bs4.node :=
  match Bs4.find_all_class [Py.lit "article"] (Py.lit "u-full-height") soup with
  | [] => Bs4.find_all_class [Py.lit "article"] (Py.lit "c-card") soup
  | articles => articles
  end.

(** Lines 134-198. *)
Definition main : M unit :=
  log INFO (MsgStart collection_name);;
  fetched ← fetch_collection;
  match fetched with
  | None => mret tt
  | Some resp =>
      match find_articles (Http.soup resp) with
      | [] => log WARNING MsgNoArticles
      | articles =>
          log INFO (MsgFound (length articles));;
          for_articles articles;;
          log INFO (MsgDone collection_name)
      end
  end.

End Crawler.

(** ** Vocabulary of the statements *)

(** [fs'] extends [fs]: every node of [fs] is still there, as a directory
    or as a file as before; the content of a file may have changed. *)
Definition same_kind (a b : Os.inode) : Prop :=
  match a, b with
  | Os.Dir, Os.Dir => True
  | Os.File _, Os.File _ => True
  | _, _ => False
  end.

Definition extends (fs fs' : Os.filesystem) : Prop :=
  forall k a, Os.node_at fs k = Some a ->
    exists b, Os.node_at fs' k = Some b /\ same_kind a b.

(** A page as lines 77-78 get it. *)
Definition get_page (net : Http.network) (url : str) : M Http.response :=
  resp ← session_get net url false;
  raise_for_status resp;;
  mret resp.

(** The page behind [url] arrives: [session.get] returns [resp], with its
    whole body, and [raise_for_status] accepts it. *)
Definition fetched (net : Http.network) (url : str) (resp : Http.response)
  : Prop :=
  result (get_page net url ∅) = inr resp.

(** [a['href']] of an anchor of [find_all('a', href=True)]. *)
Definition href_of (a : Bs4.node) : str := default [] (Bs4.get_href a).

(** The first element of [tags], in document order, that meets [p]. *)
Definition first_where (p : Bs4.node -> bool) (tags : list Bs4.node)
  : option Bs4.node :=
  head (List.filter p tags).

(** The fallback test of line 87 and the tests of lines 91 and 95. *)
Definition pdf_fallback (a : Bs4.node) : bool :=
  Py.contains (Py.lit "Download PDF") (Bs4.get_text a)
  || Py.endswith (Py.lit ".pdf") (href_of a).

Definition text_has (phrase : str) (a : Bs4.node) : bool :=
  Py.contains phrase (Bs4.get_text_strip a).

(** What one of the three loops leaves in [links]: the link of the first
    anchor that meets [p], if there is one, joined to the article URL; or
    what [urljoin] raises on that link. *)
Definition put_first (urljoin : str -> str -> option str)
    (kind article_url : str) (p : Bs4.node -> bool) (anchors : list Bs4.node)
    (links : gmap str str) : exn + gmap str str :=
  match first_where p anchors with
  | Some a =>
      match urljoin article_url (href_of a) with
      | None => inl ValueError
      | Some u => inr (<[kind := u]> links)
      end
  | None => inr links
  end.

(** The dict after lines 83-88 and after lines 83-96, or the exception
    that ends them. *)
Definition pdf_choice (urljoin : str -> str -> option str) (article_url : str)
    (soup : Bs4.node) : exn + gmap str str :=
  match Bs4.find_class [Py.lit "a"] pdf_marker soup with
  | Some pdf_tag =>
      match Bs4.get_href pdf_tag with
      | None => inl (KeyError (Py.lit "href"))
      | Some h =>
          match urljoin article_url h with
          | None => inl ValueError
          | Some u => inr (<[Py.lit "pdf" := u]> ∅)
          end
      end
  | None =>
      put_first urljoin (Py.lit "pdf") article_url pdf_fallback
                (Bs4.find_all_href (Py.lit "a") soup) ∅
  end.

Definition links_of (urljoin : str -> str -> option str) (article_url : str)
    (soup : Bs4.node) : exn + gmap str str :=
  let anchors := Bs4.find_all_href (Py.lit "a") soup in
  match pdf_choice urljoin article_url soup with
  | inl e => inl e
  | inr links =>
      match put_first urljoin (Py.lit "supp") article_url
                      (text_has (Py.lit "Supplementary Information"))
                      anchors links with
      | inl e => inl e
      | inr links =>
          put_first urljoin (Py.lit "peer") article_url
                    (text_has (Py.lit "Peer Review File")) anchors links
      end
  end.

(** [got] is the entry that the anchor [pick] gives: its link joined to the
    article URL, and no entry when there is no anchor. *)
Definition resolved (urljoin : str -> str -> option str) (article_url : str)
    (pick : option Bs4.node) (got : option str) : Prop :=
  match pick with
  | Some a => exists u, urljoin article_url (href_of a) = Some u /\ got = Some u
  | None => got = None
  end.

(** The anchor that the words of the specification name for a phrase: the
    first [a] element of the page, in document order, whose text, stripped
    of the whitespace around it, contains the phrase. *)
Definition claimed_anchor (phrase : str) (soup : Bs4.node)
  : option Bs4.node :=
  first_where (fun a => Py.contains phrase (Py.strip (Bs4.get_text a)))
              (List.filter (Bs4.is_named [Py.lit "a"]) (Bs4.descendants soup)).

(** The two phrases of lines 91 and 95. *)
Definition supp_phrase : str := Py.lit "Supplementary Information".
Definition peer_phrase : str := Py.lit "Peer Review File".


Definition keeps_files (fs fs' : Os.filesystem) : Prop :=
  forall k i, k <> Os.key LOG_FILE -> fs !! k = Some i -> fs' !! k = Some i.

(** A run that logged no error, and a run that sent no download
    request. *)
Definition no_errors (evs : list event) : Prop :=
  List.filter is_error_log evs = [].

Definition no_downloads (evs : list event) : Prop :=
  List.filter is_download_request evs = [].

(** The collection page as lines 147-148 get it. *)
Definition get_collection (net : Http.network) : M Http.response :=
  resp ← session_get net collection_url false;
  raise_for_status resp;;
  mret resp.

(** Three properties of a piece of the script, used to compare a run with
    the run that follows it.

    [pure_run m]: what [m] does is the same on every disk, it leaves the
    disk as it is and sends no download request.

    [grows m]: the disk [m] leaves extends the one it found.

    [replays m]: when [m] has returned [a] without logging an error, it
    returns [a] again on every disk that extends the one it left, changes
    nothing there and sends no download request. *)
Definition pure_run {A} (m : M A) : Prop :=
  exists res evs, no_downloads evs /\ forall fs, m fs = Run res fs evs.




(** What one request met, as the retry rules of lines 42-47 see it: a
    connection failure or a status of the force list is tried again; an
    answer is handed back when its status is not of the force list and no
    [Retry-After] header asks for a retry of a 413, 429 or 503. *)
Definition is_transient (a : Http.attempt) : bool :=
  match a with
  | Http.ConnectionFailed => true
  | Http.Answer resp =>
      bool_decide (Http.status_code resp
                   ∈ Http.status_forcelist Http.retry_strategy)
  end.

Definition is_final (resp : Http.response) : bool :=
  negb (bool_decide (Http.status_code resp
                     ∈ Http.status_forcelist Http.retry_strategy))
  && negb (Http.retry_after resp
           && bool_decide (Http.status_code resp
                           ∈ Http.RETRY_AFTER_STATUS_CODES)).

(** The statuses that requests takes for a redirect when a [Location]
    header comes with them ([requests.models.REDIRECT_STATI]), and the URLs
    for which the session has an adapter (lines 53-54). *)
Definition is_redirect_status (resp : Http.response) : bool :=
  bool_decide (Http.status_code resp ∈ [301; 302; 303; 307; 308]%Z).

Definition has_adapter (url : str) : bool :=
  Py.startswith (Py.lit "http://") url || Py.startswith (Py.lit "https://") url.

(** The exception after the last request allowed. *)
Definition giving_up (a : Http.attempt) : exn :=
  match a with
  | Http.ConnectionFailed => ConnectionError
  | Http.Answer _ => RetryError
  end.

(** Every whitespace character of [s] is a plain space and no two stand
    side by side; [prev] tells that a whitespace character stands just
    before [s]. *)
Fixpoint single_spaced (prev : bool) (s : str) : bool :=
  match s with
  | [] => true
  | c :: r =>
      if Py.isspace c
      then (c =? 32)%N && negb prev && single_spaced true r
      else single_spaced false r
  end.

(** The three keys of the dict of links. *)
Definition link_kinds : gset str :=
  {[ Py.lit "pdf"; Py.lit "supp"; Py.lit "peer" ]}.

(** A file as lines 119-120 get it. *)
Definition get_body (net : Http.network) (url : str) : M Http.response :=
  resp ← session_get net url true;
  raise_for_status resp;;
  mret resp.

(** [adds_only m]: the disk [m] leaves holds every node of the disk it
    found, unchanged. *)
Definition adds_only {A} (m : M A) : Prop :=
  forall fs, fs ⊆ disk (m fs).

(** ** Sample pages, servers and disks *)

Module Sample.

Import Py.

Definition anchor (classes : list str) (href : option str) (text : string)
  : Bs4.node :=
  Bs4.Tag (lit "a") classes href [Bs4.NavigableString (lit text)].

Definition document (contents : list Bs4.node) : Bs4.node :=
  Bs4.Tag (lit "[document]") [] None contents.

(** An article card of the collection page. *)
Definition card (href title : string) : Bs4.node :=
  Bs4.Tag (lit "article") [lit "u-full-height"; lit "c-card"] None
    [Bs4.Tag (lit "h3") [lit "c-card__title"] None
       [anchor [] (Some (lit href)) title]].

(** A card whose title anchor has no [href]. *)
Definition card_without_href (title : string) : Bs4.node :=
  Bs4.Tag (lit "article") [lit "u-full-height"; lit "c-card"] None
    [Bs4.Tag (lit "h3") [lit "c-card__title"] None [anchor [] None title]].

Definition page (status : Z) (doc : Bs4.node) : Http.response :=
  {| Http.status_code := status; Http.retry_after := false;
     Http.soup := doc; Http.chunks := []; Http.truncated := false |}.

Definition body (chunks : list (list Byte.byte)) : Http.response :=
  {| Http.status_code := 200; Http.retry_after := false;
     Http.soup := document []; Http.chunks := chunks;
     Http.truncated := false |}.

(** The links of the samples are absolute URLs, on which
    [urllib.parse.urljoin] returns its second argument. *)
Definition urljoin_absolute (base url : str) : option str := Some url.

(** A [urljoin] that rejects every link. *)
Definition urljoin_invalid (base url : str) : option str := None.

Definition article_url : str := lit "https://www.nature.com/articles/s1".
Definition pdf_url : str := lit "https://www.nature.com/articles/s1.pdf".
Definition supp_url : str := lit "https://static.nature.com/esm/s1_ESM.zip?v=2".
Definition peer_url : str := lit "https://static.nature.com/esm/s1_peer.pdf".

(** An article page with the three links. *)
Definition article_page : Bs4.node :=
  document
    [anchor [lit "c-pdf-download__link"] (Some pdf_url) "Download PDF";
     anchor [] (Some supp_url) " Supplementary Information ";
     anchor [] (Some peer_url) "Peer Review File"].

(** An article page with two supplementary anchors: the text of the first
    is split by an inner element, the text of the second is in one piece. *)
Definition other_supp_url : str :=
  lit "https://static.nature.com/esm/s1_MOESM2_ESM.pdf".

Definition split_text_page : Bs4.node :=
  document
    [Bs4.Tag (lit "a") [] (Some supp_url)
       [Bs4.NavigableString (lit "Supplementary ");
        Bs4.Tag (lit "b") [] None [Bs4.NavigableString (lit "Information")]];
     anchor [] (Some other_supp_url) "Supplementary Information"].

(** An article page whose marked anchor has no [href]. *)
Definition broken_page : Bs4.node :=
  document
    [anchor [lit "c-pdf-download__link"] None "Download PDF";
     anchor [] (Some pdf_url) "Download PDF"].

Definition collection_page : Bs4.node :=
  document [card "https://www.nature.com/articles/s1" " Paper: One "].

(** A server that answers every request with the same status. *)
Definition always (status : Z) : Http.network :=
  fun _ _ => Http.Answer (page status (document [])).

(** A server that refuses the first connection, answers 503 next and
    then serves the article page; and one that cannot be reached. *)
Definition flaky : Http.network := fun _ n =>
  match n with
  | 0 => Http.ConnectionFailed
  | 1 => Http.Answer (page 503 (document []))
  | _ => Http.Answer (page 200 article_page)
  end.

Definition unreachable : Http.network := fun _ _ => Http.ConnectionFailed.

(** A server with one article: the collection page, the article page and
    the PDF are there; every other URL, so the other two files, is 404. *)
Definition one_article : Http.network := fun url _ =>
  if bool_decide (url = collection_url) then
    Http.Answer (page 200 collection_page)
  else if bool_decide (url = article_url) then
    Http.Answer (page 200 article_page)
  else if bool_decide (url = pdf_url) then
    Http.Answer (body [[Byte.x25; Byte.x50]; [Byte.x44; Byte.x46]])
  else Http.Answer (page 404 (document [])).


(** A server whose article page is [doc]. *)
Definition serving (doc : Bs4.node) : Http.network :=
  fun _ _ => Http.Answer (page 200 doc).

(** A disk where [out] is a regular file, and one where [PDF_t.pdf] lies
    in the current directory. *)
Definition disk_out_is_file : Os.filesystem :=
  {[ [lit "out"] := Os.File [] ]}.

Definition disk_with_pdf : Os.filesystem :=
  {[ [lit "PDF_t.pdf"] := Os.File [Byte.x25] ]}.

(** A server whose files break off after the first chunk. *)
Definition breaking : Http.network := fun _ _ =>
  Http.Answer
    {| Http.status_code := 200; Http.retry_after := false;
       Http.soup := document []; Http.chunks := [[Byte.x25; Byte.x50]];
       Http.truncated := true |}.

(** A disk where the name of the collection folder is taken by a regular
    file. *)
Definition disk_collection_is_file : Os.filesystem :=
  {[ [collection_name] := Os.File [] ]}.

(** A disk where the folder [out] holds [PDF_t.pdf]. *)
Definition disk_downloaded : Os.filesystem :=
  <[ [lit "out"; lit "PDF_t.pdf"] := Os.File [Byte.x25] ]>
    {[ [lit "out"] := Os.Dir ]}.

End Sample.

(** ** Properties *)

(** *** Python strings *)

Section PyFacts.

Import Py.

Lemma mem_true c cs : mem c cs = true <-> c ∈ cs.
Proof.
  unfold mem. rewrite existsb_exists. split.
  - intros (x & Hin & Heq). apply N.eqb_eq in Heq. subst.
    by apply list_elem_of_In.
  - intros Hin. exists c. split; [by apply list_elem_of_In | apply N.eqb_refl].
Qed.

Lemma mem_false c cs : mem c cs = false <-> c ∉ cs.
Proof.
  rewrite <- mem_true. destruct (mem c cs); split; congruence.
Qed.

Lemma lstrip_by_suffix p s : lstrip_by p s `suffix_of` s.
Proof.
  induction s as [|c r IH]; simpl; [done|].
  destruct (p c); [by apply suffix_cons_r | done].
Qed.

Lemma strip_by_Forall (P : N -> Prop) p s :
  Forall P s -> Forall P (strip_by p s).
Proof.
  intros H. unfold strip_by. apply Forall_rev.
  destruct (lstrip_by_suffix p (rev (lstrip_by p s))) as [k Hk].
  assert (Forall P (rev (lstrip_by p s))) as H'.
  { apply Forall_rev. destruct (lstrip_by_suffix p s) as [k' Hk'].
    rewrite Hk' in H. by apply Forall_app in H as [_ H]. }
  rewrite Hk in H'. by apply Forall_app in H' as [_ H'].
Qed.

Lemma sub_spaces_Forall (P : N -> Prop) b s :
  P 32%N -> Forall P s -> Forall P (sub_spaces b s).
Proof.
  intros Hsp H. revert b. induction H as [|c r Hc Hr IH]; intros b; simpl.
  - constructor.
  - destruct (isspace c); [destruct b|]; auto.
Qed.

Lemma sub_class_Forall class repl s :
  repl ∉ class -> Forall (fun c => c ∉ class) (sub_class class repl s).
Proof.
  intros Hrepl. unfold sub_class. induction s as [|c r IH]; simpl.
  - constructor.
  - constructor; [|done].
    destruct (mem c class) eqn:E; [done | by apply mem_false].
Qed.







End PyFacts.

Section SplitShape.

Import Py.




End SplitShape.

(** *** sanitize_filename *)

(** C5.  Whatever the input, the result of [sanitize_filename] holds none
    of the nine characters of [illegal_chars] (less-than, greater-than,
    colon, double quote, slash, backslash, bar, question mark, star) and is
    at most 180 characters long. *)
Theorem sanitize_filename_safe (name : str) :
  (forall c, c ∈ illegal_chars -> c ∉ sanitize_filename name)
  /\ length (sanitize_filename name) <= 180.
Proof.
  split.
  - assert (Forall (fun c => c ∉ illegal_chars) (sanitize_filename name)) as H.
    { unfold sanitize_filename, Py.strip.
      apply Forall_take, strip_by_Forall, sub_spaces_Forall.
      - by vm_compute; intros H; repeat (apply elem_of_cons in H as [H|H]; [done|]);
          apply elem_of_nil in H.
      - apply sub_class_Forall.
        by vm_compute; intros H; repeat (apply elem_of_cons in H as [H|H]; [done|]);
          apply elem_of_nil in H. }
    intros c Hc Hin. rewrite Forall_forall in H. by apply (H c Hin).
  - unfold sanitize_filename. rewrite length_take. lia.
Qed.

(** *** The file name of a download *)



(** *** The retrying session *)

Section RetryFacts.

Variable net : Http.network.

(** Every event of [urlopen] is a request, and there are at most
    [left + 1] of them. *)
Lemma urlopen_events r method url stream left n :
  exists k, k <= S left
    /\ snd (Http.urlopen net r method url stream left n)
       = replicate k (Request url stream).
Proof.
  revert n. induction left as [|left IH]; intros n; simpl.
  - destruct (net url n) as [|resp]; [exists 1; auto|].
    destruct (Http.is_retry _ _ _ _ _); exists 1; auto.
  - destruct (IH (S n)) as (k & Hk & Hev).
    destruct (Http.urlopen net r method url stream left (S n)) as [res evs].
    simpl in Hev. subst evs.
    destruct (net url n) as [|resp].
    + exists (S k). split; [lia | done].
    + destruct (Http.is_retry _ _ _ _ _).
      * exists (S k). split; [lia | done].
      * exists 1. split; [lia | done].
Qed.

(** When every answer carries a status of the force list, a method that may
    be retried uses up the whole budget. *)
Lemma urlopen_exhausts r method url stream left n :
  method ∈ Http.allowed_methods r ->
  (forall m, exists resp, net url m = Http.Answer resp
       /\ Http.status_code resp ∈ Http.status_forcelist r) ->
  Http.urlopen net r method url stream left n
  = (inl RetryError, replicate (S left) (Request url stream)).
Proof.
  intros Hm Hall. revert n. induction left as [|left IH]; intros n; simpl.
  - destruct (Hall n) as (resp & -> & Hst). unfold Http.is_retry.
    by rewrite !bool_decide_eq_true_2.
  - destruct (Hall n) as (resp & -> & Hst). unfold Http.is_retry.
    rewrite !bool_decide_eq_true_2 by done. simpl. by rewrite IH.
Qed.

(** [session.get] adds the reading of the body to what the adapter
    does. *)
Lemma session_get_run url stream fs :
  session_get net url stream fs
  = Run (match fst (Http.get net url stream) with
         | inl e => inl e
         | inr resp =>
             if negb stream && Http.truncated resp
             then inl ChunkedEncodingError else inr resp
         end) fs (snd (Http.get net url stream)).
Proof.
  unfold session_get.
  destruct (Http.get net url stream) as [[e|resp] evs]; [done|].
  simpl. by destruct (negb stream && Http.truncated resp).
Qed.

Lemma session_get_at_most_four url stream fs :
  length (events (session_get net url stream fs)) <= 4.
Proof.
  rewrite session_get_run. unfold Http.get.
  destruct (urlopen_events Http.retry_strategy (Py.lit "GET") url stream
              (Http.total Http.retry_strategy) 0) as (k & Hk & Hev).
  cbn [events]. rewrite Hev. by rewrite length_replicate.
Qed.

End RetryFacts.

(** C1 (as amended).  For a URL whose answers all carry a status of the
    retryable set 429, 500, 502, 503, 504, the session sends four requests,
    the first one and three retries, and then gives up with [RetryError]. *)
Theorem retryable_status_four_requests (net : Http.network) (url : str)
    (stream : bool) (fs : Os.filesystem) :
  (forall n, exists resp, net url n = Http.Answer resp
       /\ Http.status_code resp ∈ Http.status_forcelist Http.retry_strategy) ->
  session_get net url stream fs
  = Run (inl RetryError) fs (replicate 4 (Request url stream)).
Proof.
  intros Hall. unfold session_get, Http.get.
  rewrite (urlopen_exhausts net); [done | | done].
  apply (bool_decide_unpack _). by vm_compute.
Qed.

Lemma retryable_status_four_requests_witness :
  (forall n, exists resp, Sample.always 503 Sample.article_url n = Http.Answer resp
       /\ Http.status_code resp ∈ Http.status_forcelist Http.retry_strategy)
  /\ session_get (Sample.always 503) Sample.article_url false ∅
     = Run (inl RetryError) ∅ (replicate 4 (Request Sample.article_url false)).
Proof.
  assert (forall n, exists resp,
             Sample.always 503 Sample.article_url n = Http.Answer resp
             /\ Http.status_code resp ∈ Http.status_forcelist Http.retry_strategy)
    as H.
  { intros n. eexists. split; [reflexivity|].
    apply (bool_decide_unpack _). by vm_compute. }
  split; [exact H|].
  exact (retryable_status_four_requests (Sample.always 503) Sample.article_url
           false ∅ H).
Defined.

(** C1 as stated fails: a server that always answers 503 is asked four
    times, not three. *)
Lemma three_requests_refuted :
  ~ (forall (net : Http.network) (url : str) (fs : Os.filesystem),
        (forall n, exists resp, net url n = Http.Answer resp
            /\ Http.status_code resp ∈ Http.status_forcelist Http.retry_strategy) ->
        length (List.filter is_request (events (session_get net url false fs)))
        <= 3).
Proof.
  intros H.
  specialize (H (Sample.always 503) Sample.article_url ∅).
  assert (length (List.filter is_request
            (events (session_get (Sample.always 503) Sample.article_url false ∅)))
          = 4) as E by (by vm_compute).
  rewrite E in H. 
  assert (4 <= 3) as Habs; [|lia].
  apply H. intros n. eexists. split; [reflexivity|].
  apply (bool_decide_unpack _). by vm_compute.
Qed.



(** *** The file system *)

Section OsFacts.

Implicit Types fs : Os.filesystem.

Lemma same_kind_refl a : same_kind a a.
Proof. by destruct a. Qed.

Lemma same_kind_trans a b c : same_kind a b -> same_kind b c -> same_kind a c.
Proof. by destruct a, b, c. Qed.

Lemma extends_refl fs : extends fs fs.
Proof. intros k a H. exists a. split; [done | apply same_kind_refl]. Qed.

Lemma extends_trans fs1 fs2 fs3 :
  extends fs1 fs2 -> extends fs2 fs3 -> extends fs1 fs3.
Proof.
  intros H12 H23 k a Ha.
  destruct (H12 k a Ha) as (b & Hb & Hab).
  destruct (H23 k b Hb) as (c & Hc & Hbc).
  exists c. split; [done | by eapply same_kind_trans].
Qed.

Lemma node_at_fixed fs k :
  bool_decide (k = []) || bool_decide (k = [[Os.slash]]) = true ->
  Os.node_at fs k = Some Os.Dir.
Proof. intros H. unfold Os.node_at. by rewrite H. Qed.

Lemma node_at_lookup fs k :
  bool_decide (k = []) || bool_decide (k = [[Os.slash]]) = false ->
  Os.node_at fs k = fs !! k.
Proof. intros H. unfold Os.node_at. by rewrite H. Qed.

Lemma node_at_not_dir_lookup fs k :
  Os.node_at fs k <> Some Os.Dir ->
  bool_decide (k = []) || bool_decide (k = [[Os.slash]]) = false.
Proof.
  intros H. destruct (_ || _) eqn:E; [|done].
  by rewrite (node_at_fixed fs k E) in H.
Qed.

Lemma subseteq_extends fs fs' : fs ⊆ fs' -> extends fs fs'.
Proof.
  intros Hsub k a Ha. exists a. split; [|apply same_kind_refl].
  unfold Os.node_at in *. destruct (_ || _); [done|].
  by eapply lookup_weaken.
Qed.

Lemma extends_dir fs fs' k :
  extends fs fs' -> Os.node_at fs k = Some Os.Dir ->
  Os.node_at fs' k = Some Os.Dir.
Proof.
  intros H Hk. destruct (H k _ Hk) as (b & Hb & Hkind). by destruct b.
Qed.

Lemma walk_extends fs fs' pre rest a :
  extends fs fs' -> Os.walk fs pre rest = Some a ->
  exists b, Os.walk fs' pre rest = Some b /\ same_kind a b.
Proof.
  intros H. revert pre. induction rest as [|c r IH]; intros pre; simpl.
  - apply H.
  - destruct (Os.node_at fs pre) as [[|d]|] eqn:E; try done.
    rewrite (extends_dir fs fs' pre H E). apply IH.
Qed.

Lemma stat_extends fs fs' p a :
  extends fs fs' -> Os.stat fs p = Some a ->
  exists b, Os.stat fs' p = Some b /\ same_kind a b.
Proof.
  intros H. unfold Os.stat. destruct p as [|c p]; [done|].
  destruct (Os.walk fs [] (Os.key (c :: p))) as [[|d]|] eqn:E; [| |done].
  - intros [= <-]. destruct (walk_extends _ _ _ _ _ H E) as (b & -> & Hk).
    destruct b; [|done]. by exists Os.Dir.
  - destruct (Py.endswith [Os.slash] (c :: p)); [done|]. intros [= <-].
    destruct (walk_extends _ _ _ _ _ H E) as (b & -> & Hk).
    destruct b as [|d']; [done|]. by exists (Os.File d').
Qed.

Lemma exists_extends fs fs' p :
  extends fs fs' -> Os.exists_ fs p = true -> Os.exists_ fs' p = true.
Proof.
  intros H. unfold Os.exists_. rewrite !bool_decide_eq_true.
  intros [a Ha]. destruct (stat_extends _ _ _ _ H Ha) as (b & Hb & _). eauto.
Qed.

(** [makedirs] only adds directories. *)
Lemma mkdirs_subseteq fs fs' pre rest :
  Os.mkdirs fs pre rest = inr fs' -> fs ⊆ fs'.
Proof.
  revert fs pre. induction rest as [|c r IH]; intros fs pre; simpl.
  - by intros [= ->].
  - destruct (Os.node_at fs (pre ++ [c])) as [[|d]|] eqn:E.
    + apply IH.
    + done.
    + intros Hm. apply IH in Hm. etrans; [|exact Hm].
      apply insert_subseteq.
      rewrite <- node_at_lookup; [done|].
      apply (node_at_not_dir_lookup fs). by rewrite E.
Qed.

Lemma makedirs_subseteq fs fs' name :
  Os.makedirs fs name = inr fs' -> fs ⊆ fs'.
Proof.
  unfold Os.makedirs. destruct name; [done|]. apply mkdirs_subseteq.
Qed.

Lemma insert_file_extends fs k d :
  Os.node_at fs k <> Some Os.Dir -> extends fs (<[k := Os.File d]> fs).
Proof.
  intros Hk k' a Ha. destruct (decide (k' = k)) as [->|Hne].
  - pose proof (node_at_not_dir_lookup fs k Hk) as Hroot.
    exists (Os.File d). rewrite (node_at_lookup _ _ Hroot), lookup_insert_eq.
    split; [done|]. destruct a; [by destruct Hk | done].
  - exists a. split; [|apply same_kind_refl].
    unfold Os.node_at in *. destruct (_ || _); [done|].
    by rewrite lookup_insert_ne.
Qed.

Lemma open_wb_extends fs fs' p k :
  Os.open_wb fs p = inr (fs', k) -> extends fs fs'.
Proof.
  unfold Os.open_wb. destruct p as [|c p]; [done|].
  destruct (Py.endswith _ _); [done|].
  destruct (Os.walk fs [] _) as [[|?]|]; try done.
  destruct (Os.node_at fs (Os.key (c :: p))) as [[|d]|] eqn:E; [done| |];
    intros [= <- <-]; apply insert_file_extends; by rewrite E.
Qed.

Lemma write_extends fs k chunk : extends fs (Os.write fs k chunk).
Proof.
  intros k' a Ha. unfold Os.write, Os.node_at in *.
  destruct (_ || _); [exists a; split; [done | apply same_kind_refl]|].
  rewrite lookup_alter. case_decide as Hk.
  - subst k'. rewrite Ha. simpl. destruct a; eexists; split; done.
  - exists a. split; [done | apply same_kind_refl].
Qed.

End OsFacts.

(** *** The monad *)

Section MonadFacts.

Context {A B : Type}.

Lemma bind_run (m : M A) (f : A -> M B) fs a fs' evs :
  m fs = Run (inr a) fs' evs ->
  (m ≫= f) fs
  = Run (result (f a fs')) (disk (f a fs')) (evs ++ events (f a fs')).
Proof. intros H. unfold mbind, M_bind. by rewrite H. Qed.

Lemma bind_raise (m : M A) (f : A -> M B) fs e fs' evs :
  m fs = Run (inl e) fs' evs -> (m ≫= f) fs = Run (inl e) fs' evs.
Proof. intros H. unfold mbind, M_bind. by rewrite H. Qed.

Lemma run_eta (r : run A) : r = Run (result r) (disk r) (events r).
Proof. by destruct r. Qed.

End MonadFacts.

(** Runs, step by step: each lemma takes the run of the first part and the
    run of what follows. *)
Section RunSteps.

Context {A B : Type}.

Lemma bind_seq (m : M A) (f : A -> M B) fs a fs' evs res d evs' total :
  m fs = Run (inr a) fs' evs ->
  f a fs' = Run res d evs' ->
  total = evs ++ evs' ->
  (m ≫= f) fs = Run res d total.
Proof. intros Hm Hf ->. erewrite bind_run by exact Hm. by rewrite Hf. Qed.

Lemma bind_fail (m : M A) (f : A -> M B) fs e fs' evs :
  m fs = Run (inl e) fs' evs -> (m ≫= f) fs = Run (inl e) fs' evs.
Proof. apply bind_raise. Qed.

Lemma try_returns (body : M A) catches handler fs a d evs :
  body fs = Run (inr a) d evs ->
  try_except body catches handler fs = Run (inr a) d evs.
Proof. intros H. unfold try_except. by rewrite H. Qed.

Lemma try_caught (body : M A) catches handler fs e d evs res d' evs' total :
  body fs = Run (inl e) d evs -> catches e = true ->
  handler e d = Run res d' evs' ->
  total = evs ++ evs' ->
  try_except body catches handler fs = Run res d' total.
Proof.
  intros H Hc Hh ->. unfold try_except. rewrite H. simpl. by rewrite Hc, Hh.
Qed.

Lemma try_passes (body : M A) catches handler fs e d evs :
  body fs = Run (inl e) d evs -> catches e = false ->
  try_except body catches handler fs = Run (inl e) d evs.
Proof. intros H Hc. unfold try_except. rewrite H. simpl. by rewrite Hc. Qed.

End RunSteps.

Lemma write_all_run f chunks fs :
  write_all f chunks fs
  = Run (inr tt) (fold_left (fun d c => Os.write d f c) chunks fs) [].
Proof.
  revert fs. induction chunks as [|c r IH]; intros fs; simpl; [done|].
  eapply bind_seq; [reflexivity | apply IH | done].
Qed.

(** [lists] settles the equation between event lists; [prim] runs one
    primitive, with the facts at hand about the disk and the server;
    [run_solve] follows a piece of the script to its end. *)
Ltac lists :=
  cbn [app]; rewrite ?app_nil_r, <- ?app_assoc; cbn [app]; reflexivity.

Ltac use_facts :=
  repeat match goal with
         | H : Os.makedirs _ _ = _ |- _ => rewrite H
         | H : Os.exists_ _ _ = _ |- _ => rewrite H
         | H : Os.open_wb _ _ = _ |- _ => rewrite H
         | H : Http.get _ _ _ = _ |- _ => rewrite H
         | H : Http.raise_for_status _ = _ |- _ => rewrite H
         | H : Http.truncated _ = _ |- _ => rewrite H
         | H : Bs4.get_href _ = _ |- _ => rewrite H
         end.

Ltac prim :=
  first
    [ reflexivity
    | eassumption
    | apply write_all_run
    | unfold makedirs, path_exists, open_wb, session_get, raise_for_status,
        lift_exn, log, emit, sleep_uniform, raise, write, getitem_href;
      use_facts; cbv beta iota; cbn [negb andb]; use_facts; reflexivity ].

Ltac run_solve :=
  cbv beta iota;
  lazymatch goal with
  | |- (?m ≫= ?f) ?fs = _ =>
      first [ eapply bind_seq; [prim | run_solve | lists]
            | eapply bind_fail; prim
            | eapply bind_seq; [run_solve | run_solve | lists]
            | eapply bind_fail; run_solve ]
  | |- try_except ?b ?c ?h ?fs = _ =>
      first [ eapply try_returns; run_solve
            | eapply try_caught; [run_solve | reflexivity | run_solve | lists]
            | eapply try_passes; [run_solve | reflexivity] ]
  | |- (if ?c then _ else _) ?fs = _ =>
      use_facts; cbv beta iota; run_solve
  | |- _ => prim
  end.

(** *** download_file *)

Section DownloadFacts.

Variable net : Http.network.

(** An error of [os.makedirs] leaves [download_file] as it is: line 107
    stands before the [try]. *)
Lemma download_file_makedirs_error url dest_folder file_prefix base_filename
    fs e :
  Os.makedirs fs dest_folder = inl e ->
  download_file net url dest_folder file_prefix base_filename fs
  = Run (inl e) fs [].
Proof.
  intros H. unfold download_file, mbind, M_bind, makedirs. by rewrite H.
Qed.

Lemma makedirs_keeps_existing fs fs' dest_folder p :
  Os.makedirs fs dest_folder = inr fs' ->
  Os.exists_ fs p = true -> Os.exists_ fs' p = true.
Proof.
  intros Hm. apply exists_extends, subseteq_extends.
  by eapply makedirs_subseteq.
Qed.

End DownloadFacts.

(** C2.  [download_file] lets an exception out when the destination
    directory cannot be created: with a regular file [out] in the way,
    [os.makedirs] raises [NotADirectoryError] before the [try] is entered. *)
Theorem download_file_raises_out_of_makedirs :
  download_file Sample.one_article Sample.pdf_url (Py.lit "out/Paper")
                (Py.lit "PDF_") (Py.lit "Paper") Sample.disk_out_is_file
  = Run (inl NotADirectoryError) Sample.disk_out_is_file [].
Proof. by apply download_file_makedirs_error. Qed.

(** C4 (as amended).  When [os.makedirs] returns for the destination
    directory and the derived file is on disk, [download_file] returns
    [True], logs the skip and sends no request. *)
Theorem existing_file_is_skipped (net : Http.network)
    (url dest_folder file_prefix base_filename : str)
    (fs fs' : Os.filesystem) :
  Os.exists_ fs (local_path url dest_folder file_prefix base_filename) = true ->
  Os.makedirs fs dest_folder = inr fs' ->
  download_file net url dest_folder file_prefix base_filename fs
  = Run (inr true) fs'
        [Log INFO (MsgExists (local_filename url file_prefix base_filename))].
Proof.
  intros Hex Hmk.
  pose proof (makedirs_keeps_existing _ _ _ _ Hmk Hex) as Hex'.
  unfold local_path in Hex'. clear Hex.
  unfold download_file. run_solve.
Qed.

Lemma existing_file_is_skipped_witness :
  let url := Sample.pdf_url in
  Os.exists_ Sample.disk_downloaded
             (local_path url (Py.lit "out") (Py.lit "PDF_") (Py.lit "t")) = true
  /\ Os.makedirs Sample.disk_downloaded (Py.lit "out")
     = inr Sample.disk_downloaded
  /\ download_file Sample.one_article url (Py.lit "out") (Py.lit "PDF_")
                   (Py.lit "t") Sample.disk_downloaded
     = Run (inr true) Sample.disk_downloaded
           [Log INFO (MsgExists (Py.lit "PDF_t.pdf"))].
Proof.
  intros url.
  assert (Os.exists_ Sample.disk_downloaded
            (local_path url (Py.lit "out") (Py.lit "PDF_") (Py.lit "t")) = true)
    as Hex by (by vm_compute).
  assert (Os.makedirs Sample.disk_downloaded (Py.lit "out")
          = inr Sample.disk_downloaded) as Hmk by reflexivity.
  split; [exact Hex|]. split; [exact Hmk|].
  exact (existing_file_is_skipped Sample.one_article url (Py.lit "out")
           (Py.lit "PDF_") (Py.lit "t") _ _ Hex Hmk).
Defined.

(** C4 as stated fails: with the empty string as destination directory the
    derived file [PDF_t.pdf] can be on disk, and still [os.makedirs] raises
    [FileNotFoundError] before the file is looked for. *)
Lemma existing_file_skip_refuted :
  ~ (forall (net : Http.network) (url dest_folder file_prefix base_filename : str)
            (fs : Os.filesystem),
        Os.exists_ fs (local_path url dest_folder file_prefix base_filename)
        = true ->
        result (download_file net url dest_folder file_prefix base_filename fs)
        = inr true).
Proof.
  intros H.
  specialize (H Sample.one_article Sample.pdf_url [] (Py.lit "PDF_")
                (Py.lit "t") Sample.disk_with_pdf).
  assert (Os.exists_ Sample.disk_with_pdf
            (local_path Sample.pdf_url [] (Py.lit "PDF_") (Py.lit "t")) = true)
    as Hex by (by vm_compute).
  specialize (H Hex).
  rewrite (download_file_makedirs_error _ _ _ _ _ _ FileNotFoundError) in H;
    [discriminate | reflexivity].
Qed.

(** *** get_all_download_links *)

Section LinkFacts.

Variable net : Http.network.
Variable urljoin : str -> str -> option str.

Implicit Types links : gmap str str.

Lemma find_all_href_has_href name root :
  Forall (fun a => Bs4.has_href a = true) (Bs4.find_all_href name root).
Proof.
  unfold Bs4.find_all_href. apply Forall_forall. intros a Ha.
  apply list_elem_of_In, filter_In in Ha as [_ Ha].
  by apply andb_true_iff in Ha as [_ Ha].
Qed.

Lemma getitem_href_has_href a fs :
  Bs4.has_href a = true -> getitem_href a fs = Run (inr (href_of a)) fs [].
Proof.
  unfold getitem_href, href_of. by destruct a as [|? ? [h|] ?].
Qed.

Lemma pdf_cond_has_href a fs :
  Bs4.has_href a = true -> pdf_cond a fs = Run (inr (pdf_fallback a)) fs [].
Proof.
  intros H. unfold pdf_cond, pdf_fallback.
  destruct (Py.contains _ _); [done|].
  unfold mbind, M_bind. by rewrite (getitem_href_has_href a fs H).
Qed.

(** A loop over anchors that all have an [href] leaves the link of the first
    anchor that passes the test, and raises only what [urljoin] raises on
    that link. *)
Lemma scan_put_first cond p kind article_url tags links fs :
  Forall (fun a => Bs4.has_href a = true) tags ->
  (forall a, Bs4.has_href a = true -> cond a fs = Run (inr (p a)) fs []) ->
  scan urljoin cond kind article_url tags links fs
  = Run (put_first urljoin kind article_url p tags links) fs [].
Proof.
  intros Htags Hcond. unfold put_first, first_where.
  induction Htags as [|a rest Ha Hrest IH]; simpl; [done|].
  unfold mbind, M_bind. rewrite (Hcond a Ha). simpl.
  destruct (p a); simpl; [|by rewrite IH].
  rewrite (getitem_href_has_href a fs Ha). unfold call_urljoin. simpl.
  by destruct (urljoin article_url (href_of a)).
Qed.

(** The entry that a loop leaves under its own key, and the entries it
    leaves alone. *)
Lemma put_first_resolved kind article_url p tags links links' :
  put_first urljoin kind article_url p tags links = inr links' ->
  (links !! kind = None ->
   resolved urljoin article_url (first_where p tags) (links' !! kind))
  /\ (forall kind', kind <> kind' -> links' !! kind' = links !! kind').
Proof.
  unfold put_first, resolved. destruct (first_where p tags) as [a|].
  - destruct (urljoin article_url (href_of a)) as [u|]; [|done].
    intros [= <-]. split.
    + intros _. exists u. by rewrite lookup_insert_eq.
    + intros kind' Hne. by rewrite lookup_insert_ne.
  - intros [= <-]. by split.
Qed.

Lemma pdf_link_run article_url page fs :
  pdf_link urljoin article_url page (Bs4.find_all_href (Py.lit "a") page) fs
  = Run (pdf_choice urljoin article_url page) fs [].
Proof.
  unfold pdf_link, pdf_choice.
  destruct (Bs4.find_class [Py.lit "a"] pdf_marker page) as [pdf_tag|].
  - destruct (Bs4.get_href pdf_tag) as [h|] eqn:Hh; [|run_solve].
    destruct (urljoin article_url h) as [u|] eqn:Hu.
    + eapply bind_seq; [prim | | lists].
      eapply bind_seq;
        [unfold call_urljoin; by rewrite Hu | reflexivity | lists].
    + eapply bind_seq; [prim | | lists].
      apply bind_fail. unfold call_urljoin. by rewrite Hu.
  - apply (scan_put_first pdf_cond pdf_fallback).
    + apply find_all_href_has_href.
    + intros a Ha. by apply pdf_cond_has_href.
Qed.

(** The dict that lines 81-96 build, or the exception that ends them. *)
Lemma extract_links_run article_url page fs :
  extract_links urljoin article_url page fs
  = Run (links_of urljoin article_url page) fs [].
Proof.
  unfold extract_links, links_of. cbv zeta.
  pose proof (find_all_href_has_href (Py.lit "a") page) as Hanchors.
  destruct (pdf_choice urljoin article_url page) as [e|links0] eqn:Hpdf.
  { apply bind_fail. by rewrite pdf_link_run, Hpdf. }
  eapply bind_seq; [by rewrite pdf_link_run, Hpdf | | lists].
  cbv beta.
  destruct (put_first urljoin (Py.lit "supp") article_url
              (text_has (Py.lit "Supplementary Information"))
              (Bs4.find_all_href (Py.lit "a") page) links0)
    as [e|links1] eqn:Hsupp.
  { apply bind_fail.
    by rewrite (scan_put_first supp_cond
                  (text_has (Py.lit "Supplementary Information"))), Hsupp. }
  eapply bind_seq;
    [by rewrite (scan_put_first supp_cond
                   (text_has (Py.lit "Supplementary Information"))), Hsupp
    | | lists].
  by apply (scan_put_first peer_cond (text_has (Py.lit "Peer Review File"))).
Qed.

(** Lines 81-96 raise nothing but the [KeyError] of line 84 and the
    [ValueError] of [urljoin]. *)
Lemma put_first_raises kind article_url p tags links e :
  put_first urljoin kind article_url p tags links = inl e -> e = ValueError.
Proof.
  unfold put_first. destruct (first_where p tags) as [a|]; [|done].
  destruct (urljoin article_url (href_of a)); [done|]. by intros [= <-].
Qed.

Lemma links_of_raises article_url page e :
  links_of urljoin article_url page = inl e ->
  e = KeyError (Py.lit "href") \/ e = ValueError.
Proof.
  unfold links_of, pdf_choice. cbv zeta.
  destruct (Bs4.find_class _ _ page) as [t|].
  - destruct (Bs4.get_href t) as [h|]; [|intros [= <-]; by left].
    destruct (urljoin article_url h) as [u|]; [|intros [= <-]; by right].
    destruct (put_first _ (Py.lit "supp") _ _ _ _) as [e'|links1] eqn:Hs.
    + apply put_first_raises in Hs. intros [= <-]. by right.
    + intros He. apply put_first_raises in He. by right.
  - destruct (put_first _ (Py.lit "pdf") _ _ _ _) as [e'|links0] eqn:Hp.
    { apply put_first_raises in Hp. intros [= <-]. by right. }
    destruct (put_first _ (Py.lit "supp") _ _ _ _) as [e'|links1] eqn:Hs.
    + apply put_first_raises in Hs. intros [= <-]. by right.
    + intros He. apply put_first_raises in He. by right.
Qed.

(** A page as lines 77-78 get it, by what the adapter and the status
    give. *)
Lemma get_page_run url fs :
  get_page net url fs
  = match Http.get net url false with
    | (inl e, reqs) => Run (inl e) fs reqs
    | (inr resp, reqs) =>
        if Http.truncated resp then Run (inl ChunkedEncodingError) fs reqs
        else match Http.raise_for_status resp with
             | inl e => Run (inl e) fs reqs
             | inr _ => Run (inr resp) fs reqs
             end
    end.
Proof.
  unfold get_page.
  destruct (Http.get net url false) as [[e|resp] reqs] eqn:Hget; [run_solve|].
  destruct (Http.truncated resp) eqn:Htr; [run_solve|].
  destruct (Http.raise_for_status resp) as [e|[]] eqn:Hst; run_solve.
Qed.

(** The disk plays no part in the fetching of a page. *)
Lemma get_page_any url fs fs' :
  get_page net url fs
  = Run (result (get_page net url fs')) fs (events (get_page net url fs')).
Proof.
  rewrite !get_page_run.
  destruct (Http.get net url false) as [[e|resp] reqs]; [done|].
  destruct (Http.truncated resp); [done|].
  by destruct (Http.raise_for_status resp).
Qed.

Lemma get_page_fetched url fs resp :
  result (get_page net url fs) = inr resp <-> fetched net url resp.
Proof. unfold fetched. by rewrite (get_page_any url fs ∅). Qed.

(** What [session.get] raises is a [RequestException]. *)
Lemma urlopen_raises r method url stream left n e :
  fst (Http.urlopen net r method url stream left n) = inl e ->
  is_RequestException e = true.
Proof.
  revert n. induction left as [|left IH]; intros n; simpl.
  - destruct (net url n) as [|resp]; [by intros [= <-]|].
    destruct (Http.is_retry _ _ _ _ _); [by intros [= <-] | done].
  - specialize (IH (S n)).
    destruct (Http.urlopen net r method url stream left (S n)) as [res evs].
    destruct (net url n) as [|resp]; [done|].
    by destruct (Http.is_retry _ _ _ _ _).
Qed.

Lemma get_page_raises url fs e :
  result (get_page net url fs) = inl e -> is_RequestException e = true.
Proof.
  rewrite get_page_run. unfold Http.get.
  pose proof (urlopen_raises Http.retry_strategy (Py.lit "GET") url false
                (Http.total Http.retry_strategy) 0) as H.
  destruct (Http.urlopen _ _ _ _ _ _ _) as [[e'|resp] reqs]; simpl in *.
  - intros [= <-]. by apply H.
  - destruct (Http.truncated resp); [by intros [= <-]|].
    unfold Http.raise_for_status. destruct (_ && _); [by intros [= <-] | done].
Qed.

(** The three ways through [get_all_download_links]. *)
Lemma get_all_download_links_run url fs :
  let p := get_page net url fs in
  get_all_download_links net urljoin url fs
  = match result p with
    | inl e =>
        Run (inr ∅) fs
            (Log INFO (MsgParsing url)
             :: events p ++ [Log ERROR (MsgParseFailed url e)])
    | inr resp =>
        match links_of urljoin url (Http.soup resp) with
        | inl e => Run (inl e) fs (Log INFO (MsgParsing url) :: events p)
        | inr links =>
            Run (inr links) fs
                (Log INFO (MsgParsing url) :: events p ++ [Sleep 2 4])
        end
    end.
Proof.
  intros p. pose proof (get_page_raises url fs) as Hexn. fold p in Hexn.
  subst p. rewrite get_page_run in *. unfold get_all_download_links.
  destruct (Http.get net url false) as [[e|resp] reqs] eqn:Hget.
  { cbn [result events]. cbn [result] in Hexn.
    eapply bind_seq; [prim | | lists].
    eapply try_caught; [run_solve | by apply Hexn | run_solve | lists]. }
  destruct (Http.truncated resp) eqn:Htr.
  { cbn [result events].
    eapply bind_seq; [prim | | lists].
    eapply try_caught; [run_solve | reflexivity | run_solve | lists]. }
  destruct (Http.raise_for_status resp) as [e|[]] eqn:Hst.
  { cbn [result events]. cbn [result] in Hexn.
    eapply bind_seq; [prim | | lists].
    eapply try_caught; [run_solve | by apply Hexn | run_solve | lists]. }
  cbn [result events].
  pose proof (extract_links_run url (Http.soup resp) fs) as Hx.
  pose proof (links_of_raises url (Http.soup resp)) as Hraise.
  destruct (links_of urljoin url (Http.soup resp)) as [e|links].
  - eapply bind_seq; [prim | | lists].
    eapply try_passes; [run_solve|].
    by destruct (Hraise e eq_refl) as [-> | ->].
  - run_solve.
Qed.

(** Once the page has arrived, the call returns the dict of lines 81-96,
    or raises what they raise. *)
Lemma get_all_download_links_fetched article_url resp fs :
  fetched net article_url resp ->
  result (get_all_download_links net urljoin article_url fs)
  = links_of urljoin article_url (Http.soup resp).
Proof.
  intros Hf. apply (get_page_fetched article_url fs) in Hf.
  rewrite get_all_download_links_run. cbv zeta. rewrite Hf.
  by destruct (links_of urljoin article_url (Http.soup resp)).
Qed.

Lemma pdf_choice_keys article_url page links kind :
  pdf_choice urljoin article_url page = inr links ->
  Py.lit "pdf" <> kind -> links !! kind = None.
Proof.
  unfold pdf_choice. intros H Hne.
  destruct (Bs4.find_class _ _ page) as [t|].
  - destruct (Bs4.get_href t) as [h|]; [|done].
    destruct (urljoin article_url h) as [u|]; [|done].
    injection H as <-. by rewrite lookup_insert_ne.
  - apply put_first_resolved in H as [_ H]. by rewrite H.
Qed.

(** An anchor that a loop picks is an element of the page that carries the
    link. *)
Lemma first_where_anchor p page a :
  first_where p (Bs4.find_all_href (Py.lit "a") page) = Some a ->
  a ∈ Bs4.descendants page /\ Bs4.get_href a = Some (href_of a).
Proof.
  intros H. unfold first_where in H. apply head_Some_elem_of in H.
  apply list_elem_of_In, filter_In in H as [H _].
  unfold Bs4.find_all_href in H. apply filter_In in H as [Hin Ha].
  split; [by apply list_elem_of_In|].
  apply andb_true_iff in Ha as [_ Ha].
  unfold href_of. by destruct a as [|? ? [h|] ?].
Qed.

Lemma find_class_descendant names c page t :
  Bs4.find_class names c page = Some t -> t ∈ Bs4.descendants page.
Proof.
  intros H. unfold Bs4.find_class in H. apply head_Some_elem_of in H.
  unfold Bs4.find_all_class in H.
  apply list_elem_of_In, filter_In in H as [H _]. by apply list_elem_of_In.
Qed.

End LinkFacts.

(** C6.  The primary marker is looked for without asking for an [href]
    (line 83), and line 84 reads the [href] of the anchor it finds: on a
    page that has arrived and whose first anchor of class
    [c-pdf-download__link] has no [href], [get_all_download_links] raises
    [KeyError] and returns no links, whatever other anchors the page
    holds. *)
Theorem marked_anchor_without_href_raises (net : Http.network)
    (urljoin : str -> str -> option str) (article_url : str)
    (resp : Http.response) (pdf_tag : Bs4.node) (fs : Os.filesystem) :
  fetched net article_url resp ->
  Bs4.find_class [Py.lit "a"] pdf_marker (Http.soup resp) = Some pdf_tag ->
  Bs4.get_href pdf_tag = None ->
  result (get_all_download_links net urljoin article_url fs)
  = inl (KeyError (Py.lit "href")).
Proof.
  intros Hf Ht Hh.
  rewrite (get_all_download_links_fetched net urljoin article_url resp fs Hf).
  unfold links_of, pdf_choice. cbv zeta. by rewrite Ht, Hh.
Qed.

Lemma marked_anchor_without_href_raises_witness :
  let net := Sample.serving Sample.broken_page in
  let resp := Sample.page 200 Sample.broken_page in
  let pdf_tag :=
    Sample.anchor [Py.lit "c-pdf-download__link"] None "Download PDF" in
  (fetched net Sample.article_url resp
   /\ Bs4.find_class [Py.lit "a"] pdf_marker (Http.soup resp) = Some pdf_tag
   /\ Bs4.get_href pdf_tag = None)
  /\ first_where pdf_fallback (Bs4.find_all_href (Py.lit "a") (Http.soup resp))
     = Some (Sample.anchor [] (Some Sample.pdf_url) "Download PDF")
  /\ result (get_all_download_links net Sample.urljoin_absolute
               Sample.article_url ∅)
     = inl (KeyError (Py.lit "href")).
Proof.
  intros net resp pdf_tag.
  assert (fetched net Sample.article_url resp) as Hf by reflexivity.
  assert (Bs4.find_class [Py.lit "a"] pdf_marker (Http.soup resp)
          = Some pdf_tag) as Ht by reflexivity.
  assert (Bs4.get_href pdf_tag = None) as Hh by reflexivity.
  split; [by repeat split|]. split; [reflexivity|].
  exact (marked_anchor_without_href_raises net Sample.urljoin_absolute
           Sample.article_url resp pdf_tag ∅ Hf Ht Hh).
Defined.

(** C7 (as amended).  On a page that has arrived, a mapping that is
    returned has under [supp] the link of the first anchor with an [href],
    in document order, whose text contains [Supplementary Information], and
    under [peer] that of the first such anchor whose text contains
    [Peer Review File]; the text is the one of [get_text(strip=True)], where
    every text node is stripped on its own and the pieces are put together
    without a separator.  The link is the [href] joined to the article URL,
    and a kind without such an anchor has no key.  The two loops raise
    nothing but what [urljoin] raises: the mapping is returned whenever
    lines 83-88 return and [urljoin] accepts the links that were picked. *)
Theorem supp_peer_link_selection (net : Http.network)
    (urljoin : str -> str -> option str) (article_url : str)
    (resp : Http.response) (fs : Os.filesystem) :
  fetched net article_url resp ->
  let anchors := Bs4.find_all_href (Py.lit "a") (Http.soup resp) in
  let pick phrase := first_where (text_has phrase) anchors in
  (forall links,
      result (get_all_download_links net urljoin article_url fs) = inr links ->
      resolved urljoin article_url (pick supp_phrase) (links !! Py.lit "supp")
      /\ resolved urljoin article_url (pick peer_phrase)
                  (links !! Py.lit "peer"))
  /\ (forall links0,
        result (pdf_link urljoin article_url (Http.soup resp) anchors fs)
        = inr links0 ->
        (forall phrase a,
            phrase ∈ [supp_phrase; peer_phrase] -> pick phrase = Some a ->
            exists u, urljoin article_url (href_of a) = Some u) ->
        exists links,
          result (get_all_download_links net urljoin article_url fs)
          = inr links).
Proof.
  intros Hf anchors pick.
  rewrite (get_all_download_links_fetched net urljoin article_url resp fs Hf).
  unfold links_of. cbv zeta. fold anchors.
  assert (Py.lit "pdf" <> Py.lit "supp") as Hps by discriminate.
  assert (Py.lit "pdf" <> Py.lit "peer") as Hpr by discriminate.
  assert (Py.lit "supp" <> Py.lit "peer") as Hsr by discriminate.
  assert (Py.lit "peer" <> Py.lit "supp") as Hrs by discriminate.
  split.
  - intros links Hl.
    destruct (pdf_choice urljoin article_url (Http.soup resp))
      as [e|links0] eqn:H0; [done|].
    destruct (put_first urljoin (Py.lit "supp") article_url
                (text_has (Py.lit "Supplementary Information")) anchors links0)
      as [e|links1] eqn:H1; [done|].
    apply put_first_resolved in H1 as [Hsupp Hrest1].
    apply put_first_resolved in Hl as [Hpeer Hrest2].
    split.
    + rewrite (Hrest2 _ Hrs). apply Hsupp.
      by eapply pdf_choice_keys.
    + apply Hpeer. rewrite (Hrest1 _ Hsr). by eapply pdf_choice_keys.
  - intros links0 H0 Hjoin. rewrite pdf_link_run in H0. cbn [result] in H0.
    rewrite H0.
    assert (forall phrase kind links,
      phrase ∈ [supp_phrase; peer_phrase] ->
      exists links',
        put_first urljoin kind article_url (text_has phrase) anchors links
        = inr links') as Hput.
    { intros phrase kind links Hin. unfold put_first.
      destruct (first_where (text_has phrase) anchors) as [a|] eqn:Ha;
        [|eauto].
      destruct (Hjoin phrase a Hin Ha) as [u ->]. eauto. }
    destruct (Hput supp_phrase (Py.lit "supp") links0) as [links1 H1];
      [by left|].
    unfold supp_phrase in H1. rewrite H1.
    destruct (Hput peer_phrase (Py.lit "peer") links1) as [links2 H2];
      [by right; left|].
    unfold peer_phrase in H2. rewrite H2. eauto.
Qed.

Lemma supp_peer_link_selection_witness :
  let net := Sample.serving Sample.split_text_page in
  let resp := Sample.page 200 Sample.split_text_page in
  let anchors := Bs4.find_all_href (Py.lit "a") (Http.soup resp) in
  let pick phrase := first_where (text_has phrase) anchors in
  fetched net Sample.article_url resp
  /\ pick supp_phrase
     = Some (Sample.anchor [] (Some Sample.other_supp_url)
               "Supplementary Information")
  /\ pick peer_phrase = None
  /\ exists links,
       result (get_all_download_links net Sample.urljoin_absolute
                 Sample.article_url ∅) = inr links
       /\ resolved Sample.urljoin_absolute Sample.article_url
                   (pick supp_phrase) (links !! Py.lit "supp")
       /\ resolved Sample.urljoin_absolute Sample.article_url
                   (pick peer_phrase) (links !! Py.lit "peer").
Proof.
  intros net resp anchors pick.
  assert (fetched net Sample.article_url resp) as Hf by reflexivity.
  split; [exact Hf|]. split; [reflexivity|]. split; [reflexivity|].
  destruct (supp_peer_link_selection net Sample.urljoin_absolute
              Sample.article_url resp ∅ Hf) as [Hpick Hret].
  destruct (Hret _ eq_refl) as [links Hl].
  { intros phrase a _ _. by eexists. }
  exists links. split; [exact Hl|]. exact (Hpick links Hl).
Defined.

(** C7 as stated fails.  The first anchor of [split_text_page] reads
    [Supplementary Information], with the second word in an element of its
    own, so its text stripped as a whole contains the phrase; yet
    [get_text(strip=True)] puts the two pieces together without the space
    between them, the anchor is passed over and the link of the second
    anchor is returned. *)
Lemma first_anchor_by_trimmed_text_refuted :
  ~ (forall (net : Http.network) (urljoin : str -> str -> option str)
            (article_url : str) (resp : Http.response) (fs : Os.filesystem)
            (links : gmap str str) (a : Bs4.node) (h u : str),
        fetched net article_url resp ->
        result (get_all_download_links net urljoin article_url fs)
        = inr links ->
        claimed_anchor supp_phrase (Http.soup resp) = Some a ->
        Bs4.get_href a = Some h ->
        urljoin article_url h = Some u ->
        links !! Py.lit "supp" = Some u).
Proof.
  intros H.
  set (net := Sample.serving Sample.split_text_page).
  assert (exists links,
            result (get_all_download_links net Sample.urljoin_absolute
                      Sample.article_url ∅) = inr links
            /\ links !! Py.lit "supp" = Some Sample.other_supp_url)
    as (links & Hl & Hsupp).
  { eexists. split; [reflexivity|]. by vm_compute. }
  specialize (H net Sample.urljoin_absolute Sample.article_url
                (Sample.page 200 Sample.split_text_page) ∅ links _
                Sample.supp_url Sample.supp_url eq_refl Hl eq_refl eq_refl
                eq_refl).
  rewrite Hsupp in H. by vm_compute in H.
Qed.

(** *** The loop over the articles *)

Section LoopFacts.

Variable net : Http.network.
Variable urljoin : str -> str -> option str.

(** The three ways out of one round: the body raised (caught, logged), it
    ran to its end (pause), or it left through [continue]. *)
Lemma article_step_run article fs :
  let r := process_article net urljoin article fs in
  article_step net urljoin article fs
  = Run (inr tt) (disk r)
        (events r ++
         match result r with
         | inl e => [Log ERROR (MsgUnknown e)]
         | inr true => [Log INFO MsgPause; Sleep 8 15]
         | inr false => []
         end).
Proof.
  intros r. unfold article_step, mbind, M_bind, try_except. fold r.
  destruct r as [[e|[|]] d evs]; simpl; by rewrite ?app_nil_r.
Qed.

Lemma for_articles_cons article rest fs :
  let r := article_step net urljoin article fs in
  let r' := for_articles net urljoin rest (disk r) in
  for_articles net urljoin (article :: rest) fs
  = Run (result r') (disk r') (events r ++ events r').
Proof.
  simpl. unfold mbind, M_bind. by rewrite article_step_run.
Qed.

Lemma for_articles_returns articles fs :
  result (for_articles net urljoin articles fs) = inr tt.
Proof.
  revert fs. induction articles as [|a rest IH]; intros fs; [done|].
  rewrite for_articles_cons. simpl. apply IH.
Qed.

Lemma for_articles_app before after fs :
  let r := for_articles net urljoin before fs in
  let r' := for_articles net urljoin after (disk r) in
  for_articles net urljoin (before ++ after) fs
  = Run (inr tt) (disk r') (events r ++ events r').
Proof.
  revert fs. induction before as [|a rest IH]; intros fs.
  - simpl. rewrite (run_eta (for_articles net urljoin after fs)) at 1.
    by rewrite for_articles_returns.
  - rewrite <- app_comm_cons, !for_articles_cons. simpl.
    rewrite IH. simpl. by rewrite app_assoc.
Qed.

Lemma get_collection_raises fs e :
  result (get_collection net fs) = inl e -> is_RequestException e = true.
Proof. apply (get_page_raises net collection_url). Qed.

Lemma get_collection_disk fs : disk (get_collection net fs) = fs.
Proof.
  change (get_collection net fs) with (get_page net collection_url fs).
  by rewrite (get_page_any net collection_url fs fs).
Qed.

Lemma fetch_collection_run fs :
  let r := get_collection net fs in
  fetch_collection net fs
  = Run (inr match result r with inl _ => None | inr resp => Some resp end)
        fs
        (Log INFO (MsgVisit collection_url) :: events r ++
         match result r with
         | inl e => [Log ERROR (MsgCollectionFailed collection_url e)]
         | inr _ => []
         end).
Proof.
  intros r. pose proof (get_collection_raises fs) as Hexn. fold r in Hexn.
  subst r.
  change (get_collection net fs) with (get_page net collection_url fs) in *.
  rewrite get_page_run in *. unfold fetch_collection.
  destruct (Http.get net collection_url false) as [[e|resp] reqs] eqn:Hget.
  { cbn [result events] in *.
    eapply try_caught; [run_solve | by apply Hexn | run_solve | lists]. }
  destruct (Http.truncated resp) eqn:Htr.
  { cbn [result events] in *.
    eapply try_caught; [run_solve | reflexivity | run_solve | lists]. }
  destruct (Http.raise_for_status resp) as [e|[]] eqn:Hst.
  { cbn [result events] in *.
    eapply try_caught; [run_solve | by apply Hexn | run_solve | lists]. }
  cbn [result events]. eapply try_returns.
  eapply bind_seq; [prim | run_solve | lists].
Qed.

Lemma for_articles_eta articles fs :
  for_articles net urljoin articles fs
  = Run (inr tt) (disk (for_articles net urljoin articles fs))
        (events (for_articles net urljoin articles fs)).
Proof.
  rewrite (run_eta (for_articles net urljoin articles fs)) at 1.
  by rewrite for_articles_returns.
Qed.

(** The three ways through [main]. *)
Lemma main_run fs :
  let r := get_collection net fs in
  main net urljoin fs
  = match result r with
    | inl e =>
        Run (inr tt) fs
            (Log INFO (MsgStart collection_name)
             :: Log INFO (MsgVisit collection_url)
             :: events r ++ [Log ERROR (MsgCollectionFailed collection_url e)])
    | inr resp =>
        match find_articles (Http.soup resp) with
        | [] =>
            Run (inr tt) fs
                (Log INFO (MsgStart collection_name)
                 :: Log INFO (MsgVisit collection_url)
                 :: events r ++ [Log WARNING MsgNoArticles])
        | articles =>
            let r' := for_articles net urljoin articles fs in
            Run (inr tt) (disk r')
                (Log INFO (MsgStart collection_name)
                 :: Log INFO (MsgVisit collection_url)
                 :: events r ++ Log INFO (MsgFound (length articles))
                 :: events r' ++ [Log INFO (MsgDone collection_name)])
        end
    end.
Proof.
  intros r. unfold main.
  erewrite bind_run by (unfold log, emit; reflexivity).
  erewrite bind_run by apply fetch_collection_run.
  fold r. cbv beta.
  destruct (result r) as [e|resp]; cbn [result disk events].
  - unfold mret, M_ret. cbn [result disk events app]. by rewrite !app_nil_r.
  - destruct (find_articles (Http.soup resp)) as [|a rest].
    + unfold log, emit. cbn [result disk events app].
      by rewrite !app_nil_r.
    + erewrite bind_run by (unfold log, emit; reflexivity).
      erewrite bind_run by apply for_articles_eta.
      unfold log, emit. cbn [result disk events app]. cbv zeta.
      by rewrite !app_nil_r.
Qed.

Lemma main_returns fs : result (main net urljoin fs) = inr tt.
Proof.
  rewrite main_run. cbv zeta.
  destruct (result (get_collection net fs)) as [e|resp]; [done|].
  by destruct (find_articles (Http.soup resp)).
Qed.

End LoopFacts.

(** C9.  An exception out of the processing of one article is caught and
    logged in the loop, and the loop goes on with the articles that follow:
    the loop and [main] never raise.  When the collection page cannot be
    fetched, [main] logs the error and ends: no article is processed and no
    further request is sent. *)
Theorem failing_article_is_isolated (net : Http.network)
    (urljoin : str -> str -> option str) :
  (forall before article rest fs e,
      let r0 := for_articles net urljoin before fs in
      let r1 := process_article net urljoin article (disk r0) in
      let r2 := for_articles net urljoin rest (disk r1) in
      let loop := for_articles net urljoin (before ++ article :: rest) fs in
      result r1 = inl e ->
      result loop = inr tt
      /\ events loop
         = events r0 ++ events r1 ++ Log ERROR (MsgUnknown e) :: events r2)
  /\ (forall articles fs, result (for_articles net urljoin articles fs) = inr tt)
  /\ (forall fs, result (main net urljoin fs) = inr tt)
  /\ (forall fs e,
         result (get_collection net fs) = inl e ->
         events (main net urljoin fs)
         = Log INFO (MsgStart collection_name)
           :: Log INFO (MsgVisit collection_url)
           :: events (get_collection net fs)
           ++ [Log ERROR (MsgCollectionFailed collection_url e)]).
Proof.
  split; [|split; [|split]].
  - intros before article rest fs e r0 r1 r2 loop Hraise. subst loop.
    rewrite for_articles_app, for_articles_cons. cbv zeta.
    rewrite article_step_run. cbv zeta. fold r0. fold r1. cbn [disk events].
    rewrite Hraise. fold r2. cbn [result events].
    split; [done|]. by rewrite <- !app_assoc.
  - apply for_articles_returns.
  - apply main_returns.
  - intros fs e Hraise. rewrite main_run. cbv zeta. by rewrite Hraise.
Qed.

Lemma failing_article_is_isolated_witness :
  let net := Sample.one_article in
  let urljoin := Sample.urljoin_absolute in
  let bad := Sample.card_without_href "Paper Zero" in
  let good := Sample.card "https://www.nature.com/articles/s1" "Paper One" in
  let r1 := process_article net urljoin bad ∅ in
  let r2 := for_articles net urljoin [good] (disk r1) in
  (result r1 = inl (KeyError (Py.lit "href"))
   /\ result (for_articles net urljoin ([] ++ bad :: [good]) ∅) = inr tt
   /\ events (for_articles net urljoin ([] ++ bad :: [good]) ∅)
      = [] ++ events r1
        ++ Log ERROR (MsgUnknown (KeyError (Py.lit "href"))) :: events r2)
  /\ (result (get_collection (Sample.always 503) ∅) = inl RetryError
      /\ events (main (Sample.always 503) urljoin ∅)
         = Log INFO (MsgStart collection_name)
           :: Log INFO (MsgVisit collection_url)
           :: events (get_collection (Sample.always 503) ∅)
           ++ [Log ERROR (MsgCollectionFailed collection_url RetryError)]).
Proof.
  intros net urljoin bad good r1 r2.
  assert (result r1 = inl (KeyError (Py.lit "href"))) as Hraise
    by reflexivity.
  assert (result (get_collection (Sample.always 503) ∅) = inl RetryError)
    as Hfetch by reflexivity.
  split; (split; [assumption|]).
  - destruct (failing_article_is_isolated net urljoin) as [H _].
    exact (H [] bad [good] ∅ _ Hraise).
  - destruct (failing_article_is_isolated (Sample.always 503) urljoin)
      as (_ & _ & _ & H).
    exact (H ∅ _ Hfetch).
Defined.

(** *** What download_file does to the disk *)

Section DiskFacts.

Implicit Types fs : Os.filesystem.

Lemma walk_snoc fs pre rest c :
  Os.walk fs pre (rest ++ [c])
  = match Os.walk fs pre rest with
    | Some Os.Dir => Os.node_at fs (pre ++ rest ++ [c])
    | _ => None
    end.
Proof.
  revert pre. induction rest as [|x r IH]; intros pre; simpl.
  - by destruct (Os.node_at fs pre) as [[|?]|].
  - destruct (Os.node_at fs pre) as [[|?]|]; [|done..].
    by rewrite IH, <- app_assoc.
Qed.

Lemma walk_last fs k :
  k <> [] ->
  Os.walk fs [] k
  = match Os.walk fs [] (removelast k) with
    | Some Os.Dir => Os.node_at fs k
    | _ => None
    end.
Proof.
  intros Hne. destruct (exists_last Hne) as (l & x & ->).
  by rewrite removelast_last, walk_snoc.
Qed.

(** After [open(p, 'wb')] the file is there. *)
Lemma open_wb_exists fs fs' p k :
  Os.open_wb fs p = inr (fs', k) -> Os.exists_ fs' p = true.
Proof.
  intros Hopen. pose proof (open_wb_extends _ _ _ _ Hopen) as Hext.
  unfold Os.open_wb in Hopen. destruct p as [|c p]; [done|].
  destruct (Py.endswith [Os.slash] (c :: p)) eqn:Hend; [done|].
  destruct (Os.walk fs [] (removelast (Os.key (c :: p)))) as [[|?]|] eqn:Hw;
    [|done..].
  assert (Os.node_at fs (Os.key (c :: p)) <> Some Os.Dir
          /\ fs' = <[Os.key (c :: p) := Os.File []]> fs) as [Hnd ->].
  { destruct (Os.node_at fs (Os.key (c :: p))) as [[|?]|]; [done| |];
      by injection Hopen as <- <-. }
  pose proof (node_at_not_dir_lookup fs _ Hnd) as Hroot.
  assert (Os.key (c :: p) <> []) as Hne.
  { intros E. rewrite E in Hroot. done. }
  destruct (walk_extends _ _ _ _ _ Hext Hw) as (b & Hw' & Hk).
  destruct b; [|done].
  unfold Os.exists_, Os.stat. apply bool_decide_eq_true.
  rewrite (walk_last _ _ Hne), Hw'.
  rewrite (node_at_lookup _ _ Hroot), lookup_insert_eq, Hend. eauto.
Qed.

(** Once [makedirs] has returned, it returns again, and changes nothing,
    on every disk that extends the one it left. *)
Lemma mkdirs_again fs fs' pre rest :
  Os.mkdirs fs pre rest = inr fs' ->
  forall fs2, extends fs' fs2 -> Os.mkdirs fs2 pre rest = inr fs2.
Proof.
  revert fs pre. induction rest as [|c r IH]; intros fs pre; simpl; [done|].
  destruct (Os.node_at fs (pre ++ [c])) as [[|d]|] eqn:E; [|done|].
  - intros Hm fs2 Hext.
    pose proof (subseteq_extends _ _ (mkdirs_subseteq _ _ _ _ Hm)) as H1.
    rewrite (extends_dir fs fs2 _ (extends_trans _ _ _ H1 Hext) E).
    by eapply IH.
  - intros Hm fs2 Hext.
    pose proof (subseteq_extends _ _ (mkdirs_subseteq _ _ _ _ Hm)) as H1.
    assert (Os.node_at (<[pre ++ [c] := Os.Dir]> fs) (pre ++ [c])
            = Some Os.Dir) as Hd.
    { unfold Os.node_at. destruct (_ || _); [done|]. apply lookup_insert_eq. }
    rewrite (extends_dir _ fs2 _ (extends_trans _ _ _ H1 Hext) Hd).
    by eapply IH.
Qed.

Lemma makedirs_again fs fs' name :
  Os.makedirs fs name = inr fs' ->
  forall fs2, extends fs' fs2 -> Os.makedirs fs2 name = inr fs2.
Proof.
  unfold Os.makedirs. destruct name; [done|]. apply mkdirs_again.
Qed.

(** [makedirs] makes directories only: a file of the new disk was there
    before. *)
Lemma mkdirs_files fs fs' pre rest k d :
  Os.mkdirs fs pre rest = inr fs' ->
  fs' !! k = Some (Os.File d) -> fs !! k = Some (Os.File d).
Proof.
  revert fs pre. induction rest as [|c r IH]; intros fs pre; simpl.
  - by intros [= ->].
  - destruct (Os.node_at fs (pre ++ [c])) as [[|?]|] eqn:E; [|done|].
    + apply IH.
    + intros Hm Hk. specialize (IH _ _ Hm Hk).
      destruct (decide (pre ++ [c] = k)) as [<-|Hne].
      * by rewrite lookup_insert_eq in IH.
      * by rewrite lookup_insert_ne in IH.
Qed.

Lemma makedirs_files fs fs' name k d :
  Os.makedirs fs name = inr fs' ->
  fs' !! k = Some (Os.File d) -> fs !! k = Some (Os.File d).
Proof.
  unfold Os.makedirs. destruct name; [done|]. apply mkdirs_files.
Qed.

Lemma write_chunks_extends fs f chunks :
  extends fs (fold_left (fun d c => Os.write d f c) chunks fs).
Proof.
  revert fs. induction chunks as [|c r IH]; intros fs; simpl.
  - apply extends_refl.
  - eapply extends_trans; [apply write_extends | apply IH].
Qed.

Lemma write_chunks_other fs f chunks k :
  k <> f -> fold_left (fun d c => Os.write d f c) chunks fs !! k = fs !! k.
Proof.
  intros Hne. revert fs. induction chunks as [|c r IH]; intros fs; simpl;
    [done|].
  rewrite IH. unfold Os.write. by rewrite lookup_alter_ne.
Qed.

Lemma open_wb_key fs fs' p k :
  Os.open_wb fs p = inr (fs', k) ->
  k = Os.key p /\ fs' = <[k := Os.File []]> fs.
Proof.
  unfold Os.open_wb. destruct p as [|c p]; [done|].
  destruct (Py.endswith _ _); [done|].
  destruct (Os.walk fs [] _) as [[|?]|]; [|done..].
  destruct (Os.node_at fs (Os.key (c :: p))) as [[|?]|]; [done| |];
    by intros [= <- <-].
Qed.

End DiskFacts.

Section DownloadRun.

Variable net : Http.network.
(** The ways through [download_file], one by one. *)
Lemma download_file_run url dest_folder file_prefix base_filename fs :
  let name := local_filename url file_prefix base_filename in
  let path := Os.join dest_folder name in
  let failed e d reqs :=
    Run (inr false) d
        (Log INFO (MsgDownloading name dest_folder)
         :: reqs ++ [Log ERROR (MsgDownloadFailed url e)]) in
  download_file net url dest_folder file_prefix base_filename fs
  = match Os.makedirs fs dest_folder with
    | inl e => Run (inl e) fs []
    | inr fs1 =>
        if Os.exists_ fs1 path then Run (inr true) fs1 [Log INFO (MsgExists name)]
        else
          match Http.get net url true with
          | (inl e, reqs) => failed e fs1 reqs
          | (inr r, reqs) =>
              match Http.raise_for_status r with
              | inl e => failed e fs1 reqs
              | inr _ =>
                  match Os.open_wb fs1 path with
                  | inl e => failed e fs1 reqs
                  | inr (fs2, f) =>
                      let fs3 :=
                        fold_left (fun d c => Os.write d f c) (Http.chunks r) fs2 in
                      if Http.truncated r
                      then failed ChunkedEncodingError fs3 reqs
                      else Run (inr true) fs3
                               (Log INFO (MsgDownloading name dest_folder)
                                :: reqs ++ [Sleep 3 6])
                  end
              end
          end
    end.
Proof.
  intros name path failed. unfold failed, download_file, iter_content_into.
  fold name. fold path.
  destruct (Os.makedirs fs dest_folder) as [e|fs1] eqn:Hmk; [run_solve|].
  destruct (Os.exists_ fs1 path) eqn:Hex; [run_solve|].
  destruct (Http.get net url true) as [[e|r] reqs] eqn:Hget; [run_solve|].
  destruct (Http.raise_for_status r) as [e|[]] eqn:Hst; [run_solve|].
  destruct (Os.open_wb fs1 path) as [e|[fs2 f]] eqn:Hopen; [run_solve|].
  destruct (Http.truncated r) eqn:Htr; run_solve.
Qed.

End DownloadRun.

Section DownloadDisk.

Variable net : Http.network.

Lemma download_file_extends url dest_folder file_prefix base_filename fs :
  extends fs (disk (download_file net url dest_folder file_prefix
                      base_filename fs)).
Proof.
  rewrite download_file_run. cbv zeta.
  destruct (Os.makedirs fs dest_folder) as [e|fs1] eqn:Hmk;
    [apply extends_refl|].
  pose proof (subseteq_extends _ _ (makedirs_subseteq _ _ _ Hmk)) as H1.
  destruct (Os.exists_ fs1 _); [done|].
  destruct (Http.get net url true) as [[e|r] reqs]; [done|].
  destruct (Http.raise_for_status r); [done|].
  destruct (Os.open_wb fs1 _) as [e|[fs2 f]] eqn:Hopen; [done|].
  pose proof (open_wb_extends _ _ _ _ Hopen) as H2.
  pose proof (write_chunks_extends fs2 f (Http.chunks r)) as H3.
  destruct (Http.truncated r); cbn [disk];
    eauto using extends_trans.
Qed.

(** The only file that [download_file] makes or changes is the one at the
    derived path. *)
Lemma download_file_one_file url dest_folder file_prefix base_filename fs k d :
  disk (download_file net url dest_folder file_prefix base_filename fs) !! k
  = Some (Os.File d) ->
  fs !! k = Some (Os.File d)
  \/ k = Os.key (local_path url dest_folder file_prefix base_filename).
Proof.
  rewrite download_file_run. cbv zeta. unfold local_path.
  set (path := Os.join dest_folder _).
  destruct (Os.makedirs fs dest_folder) as [e|fs1] eqn:Hmk; [by left|].
  pose proof (makedirs_files _ _ _ k d Hmk) as Hfiles.
  destruct (Os.exists_ fs1 path); [by left; apply Hfiles|].
  destruct (Http.get net url true) as [[e|r] reqs]; [by left; apply Hfiles|].
  destruct (Http.raise_for_status r); [by left; apply Hfiles|].
  destruct (Os.open_wb fs1 path) as [e|[fs2 f]] eqn:Hopen;
    [by left; apply Hfiles|].
  apply open_wb_key in Hopen as [-> ->].
  destruct (decide (k = Os.key path)) as [|Hne]; [by right|].
  intros Hk. left. apply Hfiles.
  destruct (Http.truncated r); cbn [disk] in Hk;
    by rewrite write_chunks_other, lookup_insert_ne in Hk.
Qed.

End DownloadDisk.

(** C3 (as amended).  The destination path is a function of the collection
    name, the sanitized title, the kind prefix and the extension taken from
    the URL: two calls for the same article and kind whose URLs give the
    same extension aim at the same path.  The log file apart, that path is
    the only place where [download_file] makes or changes a file. *)
Theorem download_path_by_extension (net : Http.network)
    (collection_name sanitized_title file_prefix url1 url2 : str)
    (fs : Os.filesystem) :
  let folder := article_folder collection_name sanitized_title in
  let path url := local_path url folder file_prefix sanitized_title in
  (extension url1 = extension url2 -> path url1 = path url2)
  /\ (forall k d,
         k <> Os.key LOG_FILE ->
         disk (download_file net url1 folder file_prefix sanitized_title fs) !! k
         = Some (Os.File d) ->
         fs !! k = Some (Os.File d) \/ k = Os.key (path url1)).
Proof.
  intros folder path. split.
  - intros Hext. unfold path, local_path, local_filename. by rewrite Hext.
  - intros k d _. apply download_file_one_file.
Qed.

Lemma download_path_by_extension_witness :
  let url1 := Sample.pdf_url in
  let url2 := Sample.peer_url in
  let folder := article_folder collection_name (Py.lit "Paper One") in
  extension url1 = extension url2
  /\ local_path url1 folder (Py.lit "PDF_") (Py.lit "Paper One")
     = local_path url2 folder (Py.lit "PDF_") (Py.lit "Paper One")
  /\ local_path url1 folder (Py.lit "PDF_") (Py.lit "Paper One")
     = Py.lit "Nature Collection gxfyskqtkm/Paper One/PDF_Paper One.pdf".
Proof.
  intros url1 url2 folder.
  assert (extension url1 = extension url2) as Hext by reflexivity.
  split; [exact Hext|]. split; [|reflexivity].
  destruct (download_path_by_extension Sample.one_article collection_name
              (Py.lit "Paper One") (Py.lit "PDF_") url1 url2 ∅) as [H _].
  exact (H Hext).
Defined.

(** C3 as stated fails: for the same article and kind, a link that ends in
    [.pdf] and one without a dot in its last piece aim at different
    paths. *)
Lemma path_without_url_refuted :
  ~ (forall collection_name sanitized_title file_prefix url1 url2 : str,
        local_path url1 (article_folder collection_name sanitized_title)
                   file_prefix sanitized_title
        = local_path url2 (article_folder collection_name sanitized_title)
                     file_prefix sanitized_title).
Proof.
  intros H.
  specialize (H collection_name (Py.lit "Paper One") (Py.lit "PDF_")
                Sample.pdf_url Sample.article_url).
  by vm_compute in H.
Qed.

(** *** A run and the run after it *)

Section Replay.


Lemma no_downloads_app evs evs' :
  no_downloads (evs ++ evs') <-> no_downloads evs /\ no_downloads evs'.
Proof.
  unfold no_downloads. rewrite List.filter_app. split.
  - by intros [? ?]%app_eq_nil.
  - by intros [-> ->].
Qed.

Lemma no_downloads_replicate k url :
  no_downloads (replicate k (Request url false)).
Proof. unfold no_downloads. by induction k. Qed.

Context {A B : Type}.


Lemma pure_ret (a : A) : pure_run (mret a : M A).
Proof. by exists (inr a), []. Qed.

Lemma pure_raise (e : exn) : pure_run (raise e : M A).
Proof. by exists (inl e), []. Qed.

Lemma pure_lift_exn (r : exn + A) : pure_run (lift_exn r).
Proof. by exists r, []. Qed.

Lemma pure_bind (m : M A) (f : A -> M B) :
  pure_run m -> (forall a, pure_run (f a)) -> pure_run (m ≫= f).
Proof.
  intros (res & evs & Hev & Hm) Hf. destruct res as [e|a].
  - exists (inl e), evs. split; [done|]. intros fs.
    by apply bind_raise.
  - destruct (Hf a) as (res' & evs' & Hev' & Hfa).
    exists res', (evs ++ evs'). split; [by apply no_downloads_app|].
    intros fs. erewrite bind_run by apply Hm. by rewrite Hfa.
Qed.

Lemma pure_try_except (body : M A) catches handler :
  pure_run body -> (forall e, pure_run (handler e)) ->
  pure_run (try_except body catches handler).
Proof.
  intros (res & evs & Hev & Hm) Hh. unfold try_except.
  destruct res as [e|a].
  - destruct (catches e) eqn:Hc.
    + destruct (Hh e) as (res' & evs' & Hev' & He).
      exists res', (evs ++ evs'). split; [by apply no_downloads_app|].
      intros fs. rewrite Hm. simpl. by rewrite Hc, He.
    + exists (inl e), evs. split; [done|]. intros fs. rewrite Hm. simpl.
      by rewrite Hc.
  - exists (inr a), evs. split; [done|]. intros fs. by rewrite Hm.
Qed.



End Replay.

(** *** More on the retrying session *)

Section SessionFacts.

Variable net : Http.network.

Lemma is_retry_final resp left :
  is_final resp = true ->
  Http.is_retry Http.retry_strategy left (Py.lit "GET")
                (Http.status_code resp) (Http.retry_after resp) = false.
Proof.
  unfold is_final, Http.is_retry. intros [H1 H2]%andb_true_iff.
  apply negb_true_iff in H1, H2.
  rewrite bool_decide_eq_true_2 by (apply (bool_decide_unpack _); by vm_compute).
  rewrite H1. simpl. rewrite <- andb_assoc, H2. apply andb_false_r.
Qed.

Lemma is_retry_transient resp left :
  is_transient (Http.Answer resp) = true ->
  Http.is_retry Http.retry_strategy left (Py.lit "GET")
                (Http.status_code resp) (Http.retry_after resp) = true.
Proof.
  unfold is_transient, Http.is_retry. intros H.
  rewrite bool_decide_eq_true_2 by (apply (bool_decide_unpack _); by vm_compute).
  by rewrite H.
Qed.

(** After [k] requests that are tried again, an answer that is handed
    back. *)
Lemma urlopen_recovers url stream resp k :
  forall left n,
    k <= left ->
    (forall i, i < k -> is_transient (net url (n + i)) = true) ->
    net url (n + k) = Http.Answer resp ->
    is_final resp = true ->
    Http.urlopen net Http.retry_strategy (Py.lit "GET") url stream left n
    = (inr resp, replicate (S k) (Request url stream)).
Proof.
  induction k as [|k IH]; intros left n Hk Htr Hans Hfin.
  - rewrite Nat.add_0_r in Hans.
    destruct left; simpl; by rewrite Hans, is_retry_final.
  - destruct left as [|left]; [lia|]. simpl.
    pose proof (Htr 0 ltac:(lia)) as H0. rewrite Nat.add_0_r in H0.
    rewrite (IH left (S n)).
    + destruct (net url n) as [|r0]; [done|].
      by rewrite is_retry_transient.
    + lia.
    + intros i Hi. specialize (Htr (S i) ltac:(lia)).
      by rewrite Nat.add_succ_r in Htr.
    + by rewrite Nat.add_succ_r in Hans.
    + done.
Qed.

(** Requests that are all tried again use up the budget. *)
Lemma urlopen_gives_up url stream :
  forall left n,
    (forall i, i <= left -> is_transient (net url (n + i)) = true) ->
    Http.urlopen net Http.retry_strategy (Py.lit "GET") url stream left n
    = (inl (giving_up (net url (n + left))),
       replicate (S left) (Request url stream)).
Proof.
  induction left as [|left IH]; intros n Htr.
  - pose proof (Htr 0 ltac:(lia)) as H0. rewrite Nat.add_0_r in *.
    simpl. destruct (net url n) as [|r0]; [done|].
    by rewrite is_retry_transient.
  - pose proof (Htr 0 ltac:(lia)) as H0. rewrite Nat.add_0_r in H0.
    simpl. rewrite (IH (S n)).
    + rewrite Nat.add_succ_r. destruct (net url n) as [|r0]; [done|].
      by rewrite is_retry_transient.
    + intros i Hi. specialize (Htr (S i) ltac:(lia)).
      by rewrite Nat.add_succ_r in Htr.
Qed.

Lemma urlopen_shape r method url stream left n :
  exists k, 1 <= k <= S left
    /\ snd (Http.urlopen net r method url stream left n)
       = replicate k (Request url stream)
    /\ forall e, fst (Http.urlopen net r method url stream left n) = inl e ->
                 e = RetryError \/ e = ConnectionError.
Proof.
  revert n. induction left as [|left IH]; intros n; simpl.
  - destruct (net url n) as [|resp].
    + exists 1. split; [lia|]. split; [done|]. intros e [= <-]. auto.
    + destruct (Http.is_retry _ _ _ _ _); exists 1;
        (split; [lia|]); (split; [done|]); [intros e [= <-]; auto | done].
  - destruct (IH (S n)) as (k & Hk & Hev & Hexn).
    destruct (Http.urlopen net r method url stream left (S n)) as [res evs].
    simpl in Hev, Hexn. subst evs.
    destruct (net url n) as [|resp].
    + exists (S k). split; [lia|]. by split.
    + destruct (Http.is_retry _ _ _ _ _).
      * exists (S k). split; [lia|]. by split.
      * exists 1. split; [lia|]. by split.
Qed.

End SessionFacts.

(** X1.  The URL is one the session has an adapter for.  When the first
    [k] requests, [k] at most 3, meet a connection failure or a status of
    the force list and the next one gets an answer that the retry rules
    accept and that is no redirect, [session.get] has sent [k + 1] requests,
    all to that URL, and hands that answer back; without [stream=True] it
    raises [ChunkedEncodingError] instead when the body of the answer breaks
    off. *)
Theorem session_get_recovers (net : Http.network) (url : str) (stream : bool)
    (fs : Os.filesystem) (k : nat) (resp : Http.response) :
  has_adapter url = true ->
  k <= 3 ->
  (forall i, i < k -> is_transient (net url i) = true) ->
  net url k = Http.Answer resp ->
  is_final resp = true ->
  is_redirect_status resp = false ->
  result (session_get net url stream fs)
  = (if negb stream && Http.truncated resp
     then inl ChunkedEncodingError else inr resp)
  /\ events (session_get net url stream fs)
     = replicate (S k) (Request url stream).
Proof.
  intros _ Hk Htr Hans Hfin _. rewrite session_get_run. unfold Http.get.
  by rewrite (urlopen_recovers net url stream resp k).
Qed.

(** X2.  When four requests in a row meet a connection failure or a status
    of the force list, [session.get] gives up after the fourth:
    [ConnectionError] when the last one failed to connect, [RetryError]
    when it was answered. *)
Theorem session_get_gives_up (net : Http.network) (url : str) (stream : bool)
    (fs : Os.filesystem) :
  (forall i, i <= 3 -> is_transient (net url i) = true) ->
  session_get net url stream fs
  = Run (inl (giving_up (net url 3))) fs (replicate 4 (Request url stream)).
Proof.
  intros Htr. rewrite session_get_run. unfold Http.get.
  change (Http.total Http.retry_strategy) with 3.
  by rewrite (urlopen_gives_up net url stream 3 0).
Qed.

Lemma session_get_recovers_witness :
  (has_adapter Sample.article_url = true
   /\ 2 <= 3
   /\ (forall i, i < 2 -> is_transient (Sample.flaky Sample.article_url i) = true)
   /\ is_final (Sample.page 200 Sample.article_page) = true
   /\ is_redirect_status (Sample.page 200 Sample.article_page) = false)
  /\ result (session_get Sample.flaky Sample.article_url false ∅)
     = inr (Sample.page 200 Sample.article_page)
  /\ events (session_get Sample.flaky Sample.article_url false ∅)
     = replicate 3 (Request Sample.article_url false).
Proof.
  assert (forall i, i < 2 ->
            is_transient (Sample.flaky Sample.article_url i) = true) as Htr.
  { intros [|[|i]] Hi; [reflexivity | reflexivity | lia]. }
  assert (2 <= 3) as Hk by lia.
  split; [by repeat split|].
  exact (session_get_recovers Sample.flaky Sample.article_url false ∅ 2 _
           eq_refl Hk Htr eq_refl eq_refl eq_refl).
Defined.

Lemma session_get_gives_up_witness :
  (forall i, i <= 3 ->
     is_transient (Sample.unreachable Sample.article_url i) = true)
  /\ session_get Sample.unreachable Sample.article_url true ∅
     = Run (inl ConnectionError) ∅ (replicate 4 (Request Sample.article_url true)).
Proof.
  assert (forall i, i <= 3 ->
            is_transient (Sample.unreachable Sample.article_url i) = true)
    as Htr by (intros i _; reflexivity).
  split; [exact Htr|].
  exact (session_get_gives_up Sample.unreachable Sample.article_url true ∅ Htr).
Defined.

(** *** More on sanitize_filename *)

Section SanitizeFacts.

Import Py.

Lemma single_spaced_weaken s :
  single_spaced true s = true -> single_spaced false s = true.
Proof.
  destruct s as [|c r]; simpl; [done|]. destruct (isspace c); [|done].
  by rewrite andb_false_r.
Qed.

Lemma single_spaced_any b s :
  single_spaced b s = true -> single_spaced false s = true.
Proof. destruct b; [apply single_spaced_weaken | done]. Qed.

Lemma single_spaced_suffix b a s :
  single_spaced b (a ++ s) = true -> single_spaced false s = true.
Proof.
  revert b. induction a as [|c r IH]; intros b; simpl.
  - apply single_spaced_any.
  - destruct (isspace c); [|apply IH].
    intros [_ H]%andb_true_iff. by apply IH in H.
Qed.

Lemma single_spaced_prefix b s a :
  single_spaced b (s ++ a) = true -> single_spaced b s = true.
Proof.
  revert b. induction s as [|c r IH]; intros b; simpl; [done|].
  destruct (isspace c); [|apply IH].
  intros [H1 H2]%andb_true_iff. rewrite H1. by apply IH in H2.
Qed.

Lemma sub_spaces_single_spaced b s :
  single_spaced b (sub_spaces b s) = true.
Proof.
  revert b. induction s as [|c r IH]; intros b; simpl; [done|].
  destruct (isspace c) eqn:E.
  - destruct b; [apply IH|]. simpl. by rewrite IH.
  - simpl. rewrite E. apply IH.
Qed.

Lemma single_spaced_fixed b s :
  single_spaced b s = true -> sub_spaces b s = s.
Proof.
  revert b. induction s as [|c r IH]; intros b; simpl; [done|].
  destruct (isspace c).
  - intros [[Hc Hb]%andb_true_iff H]%andb_true_iff.
    apply N.eqb_eq in Hc. apply negb_true_iff in Hb. subst.
    by rewrite IH.
  - intros H. by rewrite IH.
Qed.

(** [strip] cuts a piece out of the middle. *)
Lemma strip_by_infix p s :
  exists a b, s = a ++ strip_by p s ++ b.
Proof.
  unfold strip_by.
  destruct (lstrip_by_suffix p s) as [a Ha].
  destruct (lstrip_by_suffix p (rev (lstrip_by p s))) as [b Hb].
  exists a, (rev b). rewrite Ha at 1. f_equal.
  rewrite <- (rev_involutive (lstrip_by p s)), Hb at 1.
  by rewrite rev_app_distr.
Qed.

Lemma lstrip_by_head p s c r :
  lstrip_by p s = c :: r -> p c = false.
Proof.
  induction s as [|x s IH]; simpl; [done|].
  destruct (p x) eqn:E; [done|]. by intros [= <- <-].
Qed.

Lemma lstrip_by_fixed p s :
  (forall c r, s = c :: r -> p c = false) -> lstrip_by p s = s.
Proof.
  destruct s as [|c r]; simpl; [done|]. intros H. by rewrite (H c r).
Qed.

(** The result of [strip] neither starts nor ends with a stripped
    character. *)
Lemma strip_by_head p s c r : strip_by p s = c :: r -> p c = false.
Proof.
  unfold strip_by. intros H.
  destruct (lstrip_by_suffix p (rev (lstrip_by p s))) as [k Hk].
  apply (f_equal (@rev N)) in H. rewrite rev_involutive in H. simpl in H.
  rewrite H in Hk.
  apply (f_equal (@rev N)) in Hk.
  rewrite rev_involutive, rev_app_distr, rev_app_distr, rev_involutive in Hk.
  simpl in Hk. by apply lstrip_by_head in Hk.
Qed.

Lemma strip_by_last p s r c : strip_by p s = r ++ [c] -> p c = false.
Proof.
  unfold strip_by. intros H.
  apply (f_equal (@rev N)) in H.
  rewrite rev_involutive, rev_app_distr in H. simpl in H.
  by apply lstrip_by_head in H.
Qed.

Lemma strip_by_fixed p s :
  (forall c r, s = c :: r -> p c = false) ->
  (forall r c, s = r ++ [c] -> p c = false) ->
  strip_by p s = s.
Proof.
  intros Hh Hl. unfold strip_by. rewrite (lstrip_by_fixed p s Hh).
  rewrite lstrip_by_fixed; [apply rev_involutive|].
  intros c r Hr. apply (Hl (rev r)).
  apply (f_equal (@rev N)) in Hr. rewrite rev_involutive in Hr. by simpl in Hr.
Qed.

Lemma strip_by_length p s : length (strip_by p s) <= length s.
Proof.
  destruct (strip_by_infix p s) as (a & b & H).
  rewrite H at 2. rewrite !length_app. lia.
Qed.

Lemma sub_spaces_length b s : length (sub_spaces b s) <= length s.
Proof.
  revert b. induction s as [|c r IH]; intros b; simpl; [done|].
  pose proof (IH true). pose proof (IH false).
  destruct (isspace c); [destruct b|]; simpl; lia.
Qed.

Lemma sub_class_fixed class repl s :
  Forall (fun c => c ∉ class) s -> sub_class class repl s = s.
Proof.
  unfold sub_class. induction 1 as [|c r Hc Hr IH]; simpl; [done|].
  apply mem_false in Hc. by rewrite Hc, IH.
Qed.

Lemma isspace_not_illegal c : isspace c = true -> c ∉ illegal_chars.
Proof.
  intros Hs Hin. unfold illegal_chars in Hin.
  repeat (apply elem_of_cons in Hin as [->|Hin]; [by vm_compute in Hs|]).
  by apply elem_of_nil in Hin.
Qed.

(** The middle part of [sanitize_filename], before the cut at 180. *)
Lemma tidy_single_spaced name :
  single_spaced false
    (strip (sub_spaces false (sub_class illegal_chars underscore name)))
  = true.
Proof.
  set (t := sub_spaces false _).
  destruct (strip_by_infix isspace t) as (a & b & H).
  pose proof (sub_spaces_single_spaced false
                (sub_class illegal_chars underscore name)) as Hs.
  fold t in Hs. rewrite H in Hs.
  apply single_spaced_suffix in Hs. by apply single_spaced_prefix in Hs.
Qed.

Lemma sanitize_single_spaced name :
  single_spaced false (sanitize_filename name) = true.
Proof.
  unfold sanitize_filename. cbv zeta.
  pose proof (tidy_single_spaced name) as H.
  set (t := Py.strip _) in *.
  rewrite <- (take_drop 180 t) in H. by apply single_spaced_prefix in H.
Qed.

Lemma single_spaced_lookup b s i c c' :
  single_spaced b s = true ->
  s !! i = Some c -> s !! S i = Some c' ->
  isspace c = true -> isspace c' = false.
Proof.
  revert b i. induction s as [|x r IH]; intros b i Hs Hi Hi' Hc; [done|].
  destruct i as [|i].
  - simpl in Hi. injection Hi as ->. simpl in Hs. rewrite Hc in Hs.
    apply andb_true_iff in Hs as [_ Hs].
    destruct r as [|y r']; [done|]. simpl in Hi'. injection Hi' as ->.
    simpl in Hs. destruct (isspace c'); [|done].
    by rewrite andb_false_r in Hs.
  - simpl in Hs. destruct (isspace x).
    + apply andb_true_iff in Hs as [_ Hs]. by eapply (IH true i).
    + by eapply (IH false i).
Qed.

Lemma single_spaced_plain b s c :
  single_spaced b s = true -> c ∈ s -> isspace c = true -> c = 32%N.
Proof.
  revert b. induction s as [|x r IH]; intros b Hs Hin Hc;
    [by apply elem_of_nil in Hin|].
  simpl in Hs. apply elem_of_cons in Hin as [->|Hin].
  - rewrite Hc in Hs. apply andb_true_iff in Hs as [Hs _].
    apply andb_true_iff in Hs as [Hs _]. by apply N.eqb_eq in Hs.
  - destruct (isspace x).
    + apply andb_true_iff in Hs as [_ Hs]. by eapply IH.
    + by eapply IH.
Qed.

End SanitizeFacts.

(** X4.  In the result of [sanitize_filename] every whitespace character
    is a plain space, no two whitespace characters stand side by side, and
    the first character is not whitespace. *)
Theorem sanitize_filename_spacing (name : str) :
  let r := sanitize_filename name in
  (forall c, c ∈ r -> Py.isspace c = true -> c = 32%N)
  /\ (forall i c c', r !! i = Some c -> r !! S i = Some c' ->
                     Py.isspace c = true -> Py.isspace c' = false)
  /\ (forall c, head r = Some c -> Py.isspace c = false).
Proof.
  intros r. pose proof (sanitize_single_spaced name) as Hs. fold r in Hs.
  split; [|split].
  - intros c. by apply single_spaced_plain with (b := false).
  - intros i c c'. by apply single_spaced_lookup with (b := false).
  - intros c Hc. unfold r, sanitize_filename in Hc.
    destruct (Py.strip _) as [|x t] eqn:E; [done|].
    simpl in Hc. injection Hc as ->. by apply strip_by_head in E.
Qed.

(** X5.  On a name of at most 180 characters [sanitize_filename] is
    idempotent: the sanitized name is sanitized to itself. *)
Theorem sanitize_filename_idempotent (name : str) :
  length name <= 180 ->
  sanitize_filename (sanitize_filename name) = sanitize_filename name.
Proof.
  intros Hlen.
  set (t := Py.strip (Py.sub_spaces false
                        (Py.sub_class illegal_chars underscore name))).
  assert (length t <= 180) as Ht.
  { unfold t, Py.strip. etrans; [apply strip_by_length|].
    etrans; [apply sub_spaces_length|].
    unfold Py.sub_class. by rewrite length_map. }
  assert (sanitize_filename name = t) as E.
  { unfold sanitize_filename. fold t. by apply take_ge. }
  rewrite E. unfold sanitize_filename.
  assert (Forall (fun c => c ∉ illegal_chars) t) as Hclean.
  { unfold t, Py.strip. apply strip_by_Forall, sub_spaces_Forall.
    - apply isspace_not_illegal. reflexivity.
    - apply sub_class_Forall. apply mem_false. reflexivity. }
  rewrite (sub_class_fixed _ _ _ Hclean).
  rewrite (single_spaced_fixed false t) by apply tidy_single_spaced.
  unfold Py.strip at 1. rewrite strip_by_fixed.
  - by apply take_ge.
  - intros c r Hr. by apply (strip_by_head _ _ _ _ Hr).
  - intros r c Hr. by apply (strip_by_last _ _ _ _ Hr).
Qed.

Lemma sanitize_filename_spacing_witness :
  let r := sanitize_filename (Py.lit "  Cell  atlas: a/b  ") in
  r = Py.lit "Cell atlas_ a_b"
  /\ r !! 4 = Some 32%N /\ r !! 5 = Some 97%N
  /\ Py.isspace 32 = true /\ Py.isspace 97 = false.
Proof.
  intros r.
  assert (r !! 4 = Some 32%N) as H4 by reflexivity.
  assert (r !! 5 = Some 97%N) as H5 by reflexivity.
  assert (Py.isspace 32 = true) as Hs by reflexivity.
  split; [reflexivity|]. split; [exact H4|]. split; [exact H5|].
  split; [exact Hs|].
  destruct (sanitize_filename_spacing (Py.lit "  Cell  atlas: a/b  "))
    as (_ & Hadj & _).
  exact (Hadj 4 _ _ H4 H5 Hs).
Defined.

Lemma sanitize_filename_idempotent_witness :
  let name := Py.lit "  Cell  atlas: a/b  " in
  length name <= 180
  /\ sanitize_filename (sanitize_filename name) = sanitize_filename name.
Proof.
  intros name.
  assert (length name <= 180) as H by (vm_compute; lia).
  split; [exact H|]. exact (sanitize_filename_idempotent name H).
Defined.

Section BlankNames.

Import Py.

Lemma sub_spaces_blank s :
  Forall (fun c => isspace c = true) s ->
  sub_spaces true s = []
  /\ (sub_spaces false s = [] \/ sub_spaces false s = [32%N]).
Proof.
  induction 1 as [|c r Hc Hr [IH1 IH2]]; simpl; [auto|].
  rewrite Hc, IH1. auto.
Qed.

End BlankNames.

(** X6.  A name made of whitespace only, the empty name among them, is
    sanitized to the empty string. *)
Theorem sanitize_filename_blank (name : str) :
  Forall (fun c => Py.isspace c = true) name -> sanitize_filename name = [].
Proof.
  intros H. unfold sanitize_filename. cbv zeta.
  rewrite sub_class_fixed.
  - destruct (sub_spaces_blank name H) as [_ [-> | ->]]; reflexivity.
  - eapply Forall_impl; [exact H|]. intros c. apply isspace_not_illegal.
Qed.

Lemma sanitize_filename_blank_witness :
  Forall (fun c => Py.isspace c = true) (Py.lit "   ")
  /\ sanitize_filename (Py.lit "   ") = [].
Proof.
  assert (Forall (fun c => Py.isspace c = true) (Py.lit "   ")) as H
    by (repeat constructor).
  split; [exact H|]. exact (sanitize_filename_blank _ H).
Defined.

(** *** More on get_all_download_links *)

Section PageFacts.

Variable net : Http.network.
Variable urljoin : str -> str -> option str.

Lemma put_first_dom (kind url : str) (p : Bs4.node -> bool)
    (tags : list Bs4.node) (links links' : gmap str str) :
  put_first urljoin kind url p tags links = inr links' ->
  dom links' ⊆ {[kind]} ∪ dom links.
Proof.
  unfold put_first. destruct (first_where p tags) as [a|].
  - destruct (urljoin url (href_of a)) as [u|]; [|done].
    intros [= <-]. rewrite dom_insert. set_solver.
  - intros [= <-]. set_solver.
Qed.

Lemma links_of_dom url page links :
  links_of urljoin url page = inr links -> dom links ⊆ link_kinds.
Proof.
  unfold links_of, link_kinds. cbv zeta.
  destruct (pdf_choice urljoin url page) as [e|links0] eqn:Hpdf; [done|].
  destruct (put_first urljoin (Py.lit "supp") _ _ _ links0)
    as [e|links1] eqn:Hsupp; [done|].
  intros Hpeer. apply put_first_dom in Hsupp, Hpeer.
  assert (dom links0 ⊆ ({[Py.lit "pdf"]} : gset str)) as Hdom.
  { unfold pdf_choice in Hpdf. destruct (Bs4.find_class _ _ page) as [t|].
    - destruct (Bs4.get_href t) as [h|]; [|done].
      destruct (urljoin url h) as [u|]; [|done].
      injection Hpdf as <-. rewrite dom_insert, dom_empty. set_solver.
    - apply put_first_dom in Hpdf. rewrite dom_empty in Hpdf. set_solver. }
  etrans; [exact Hpeer|]. apply union_least; [set_solver|].
  etrans; [exact Hsupp|]. apply union_least; [set_solver|].
  etrans; [exact Hdom|]. set_solver.
Qed.

Lemma get_page_events url fs :
  no_downloads (events (get_page net url fs))
  /\ no_errors (events (get_page net url fs)).
Proof.
  rewrite get_page_run. unfold Http.get.
  destruct (urlopen_shape net Http.retry_strategy (Py.lit "GET") url false
              (Http.total Http.retry_strategy) 0) as (k & _ & Hev & _).
  assert (forall n, no_downloads (replicate n (Request url false))
                    /\ no_errors (replicate n (Request url false))) as Hk
    by (intros n; split; [unfold no_downloads | unfold no_errors];
        by induction n).
  specialize (Hk k).
  destruct (Http.urlopen _ _ _ _ _ _ _) as [[e|resp] reqs]; simpl in Hev;
    subst reqs; [done|].
  destruct (Http.truncated resp); [done|].
  by destruct (Http.raise_for_status resp).
Qed.

Lemma returned_links_dom (url : str) (fs : Os.filesystem)
    (links : gmap str str) :
  result (get_all_download_links net urljoin url fs) = inr links ->
  dom links ⊆ link_kinds.
Proof.
  rewrite get_all_download_links_run. cbv zeta.
  destruct (result (get_page net url fs)) as [e|resp].
  - intros [= <-]. rewrite dom_empty. set_solver.
  - destruct (links_of urljoin url (Http.soup resp)) as [e|links0] eqn:Hx;
      [done|].
    intros [= <-]. by eapply links_of_dom.
Qed.

Lemma get_all_download_links_events url fs :
  no_downloads (events (get_all_download_links net urljoin url fs)).
Proof.
  rewrite get_all_download_links_run. cbv zeta.
  destruct (get_page_events url fs) as [Hnd _].
  destruct (result (get_page net url fs)) as [e|resp].
  - change (no_downloads ([Log INFO (MsgParsing url)]
              ++ events (get_page net url fs)
              ++ [Log ERROR (MsgParseFailed url e)])).
    rewrite !no_downloads_app. by repeat split.
  - destruct (links_of urljoin url (Http.soup resp)) as [e|links].
    + change (no_downloads ([Log INFO (MsgParsing url)]
                ++ events (get_page net url fs))).
      rewrite !no_downloads_app. by repeat split.
    + change (no_downloads ([Log INFO (MsgParsing url)]
                ++ events (get_page net url fs) ++ [Sleep 2 4])).
      rewrite !no_downloads_app. by repeat split.
Qed.

(** Where an exception of lines 81-96 comes from. *)
Lemma put_first_origin kind url p page links e :
  put_first urljoin kind url p (Bs4.find_all_href (Py.lit "a") page) links
  = inl e ->
  e = ValueError
  /\ exists a h, a ∈ Bs4.descendants page /\ Bs4.get_href a = Some h
                 /\ urljoin url h = None.
Proof.
  unfold put_first.
  destruct (first_where p _) as [a|] eqn:Ha; [|done].
  apply first_where_anchor in Ha as [Hin Hh].
  destruct (urljoin url (href_of a)) eqn:Hu; [done|].
  intros [= <-]. split; [done|]. by exists a, (href_of a).
Qed.

Lemma links_of_origin url page e :
  links_of urljoin url page = inl e ->
  (e = KeyError (Py.lit "href")
   /\ exists pdf_tag,
        Bs4.find_class [Py.lit "a"] pdf_marker page = Some pdf_tag
        /\ Bs4.get_href pdf_tag = None)
  \/ (e = ValueError
      /\ exists a h, a ∈ Bs4.descendants page /\ Bs4.get_href a = Some h
                     /\ urljoin url h = None).
Proof.
  unfold links_of. cbv zeta.
  destruct (pdf_choice urljoin url page) as [e0|links0] eqn:H0.
  - intros [= <-]. unfold pdf_choice in H0.
    destruct (Bs4.find_class _ _ page) as [t|] eqn:Ht.
    + destruct (Bs4.get_href t) as [h|] eqn:Hh.
      * destruct (urljoin url h) eqn:Hu; [done|]. injection H0 as <-.
        right. split; [done|]. exists t, h.
        split; [by eapply find_class_descendant | done].
      * injection H0 as <-. left. split; [done|]. by exists t.
    + right. by eapply put_first_origin.
  - destruct (put_first urljoin (Py.lit "supp") _ _ _ links0)
      as [e1|links1] eqn:H1.
    + intros [= <-]. right. by eapply put_first_origin.
    + intros H2. right. by eapply put_first_origin.
Qed.

End PageFacts.

(** X7.  When the article page cannot be fetched, because [session.get]
    raises or because the answer has an error status,
    [get_all_download_links] raises nothing: it logs the error once and
    returns the empty dict, without the pause of 2 to 4 seconds. *)
Theorem links_of_unreachable_page (net : Http.network)
    (urljoin : str -> str -> option str) (article_url : str)
    (fs : Os.filesystem) (e : exn) :
  result (get_page net article_url fs) = inl e ->
  result (get_all_download_links net urljoin article_url fs) = inr ∅
  /\ events (get_all_download_links net urljoin article_url fs)
     = Log INFO (MsgParsing article_url)
       :: events (get_page net article_url fs)
       ++ [Log ERROR (MsgParseFailed article_url e)].
Proof.
  intros H. rewrite get_all_download_links_run. cbv zeta. by rewrite H.
Qed.

(** X8.  Whatever the server and the page, a dict returned by
    [get_all_download_links] has no key besides [pdf], [supp] and [peer],
    and the call sends no request with [stream=True]. *)
Theorem links_keys_and_effects (net : Http.network)
    (urljoin : str -> str -> option str) (article_url : str)
    (fs : Os.filesystem) :
  let r := get_all_download_links net urljoin article_url fs in
  (forall links, result r = inr links -> dom links ⊆ link_kinds)
  /\ no_downloads (events r).
Proof.
  intros r. split.
  - intros links. apply returned_links_dom.
  - apply get_all_download_links_events.
Qed.

(** X9.  An exception leaves [get_all_download_links] only once the page
    has arrived, and there are two: the [KeyError] of line 84, when the
    first anchor of class [c-pdf-download__link] has no [href], and the
    [ValueError] of [urljoin], for the [href] of an element of the page. *)
Theorem links_exceptions (net : Http.network)
    (urljoin : str -> str -> option str) (article_url : str)
    (fs : Os.filesystem) (e : exn) :
  result (get_all_download_links net urljoin article_url fs) = inl e ->
  exists resp,
    fetched net article_url resp
    /\ ((e = KeyError (Py.lit "href")
         /\ exists pdf_tag,
              Bs4.find_class [Py.lit "a"] pdf_marker (Http.soup resp)
              = Some pdf_tag
              /\ Bs4.get_href pdf_tag = None)
        \/ (e = ValueError
            /\ exists a h,
                 a ∈ Bs4.descendants (Http.soup resp)
                 /\ Bs4.get_href a = Some h
                 /\ urljoin article_url h = None)).
Proof.
  rewrite get_all_download_links_run. cbv zeta.
  destruct (result (get_page net article_url fs)) as [e'|resp] eqn:Hp; [done|].
  apply get_page_fetched in Hp.
  destruct (links_of urljoin article_url (Http.soup resp)) as [e'|links] eqn:Hx;
    [|done].
  intros [= <-]. exists resp. split; [done|]. by eapply links_of_origin.
Qed.

Lemma links_of_unreachable_page_witness :
  let net := Sample.always 404 in
  result (get_page net Sample.article_url ∅) = inl (HTTPError 404)
  /\ result (get_all_download_links net Sample.urljoin_absolute
               Sample.article_url ∅) = inr ∅
  /\ events (get_all_download_links net Sample.urljoin_absolute
               Sample.article_url ∅)
     = [Log INFO (MsgParsing Sample.article_url);
        Request Sample.article_url false;
        Log ERROR (MsgParseFailed Sample.article_url (HTTPError 404))].
Proof.
  intros net.
  assert (result (get_page net Sample.article_url ∅) = inl (HTTPError 404))
    as H by reflexivity.
  split; [exact H|].
  exact (links_of_unreachable_page net Sample.urljoin_absolute
           Sample.article_url ∅ _ H).
Defined.

Lemma links_keys_and_effects_witness :
  let net := Sample.serving Sample.article_page in
  let r := get_all_download_links net Sample.urljoin_absolute
             Sample.article_url ∅ in
  exists links, result r = inr links /\ dom links ⊆ link_kinds.
Proof.
  intros net r.
  destruct (links_keys_and_effects net Sample.urljoin_absolute
              Sample.article_url ∅) as (Hdom & _).
  eexists. split; [reflexivity|]. apply Hdom. reflexivity.
Defined.

Lemma links_exceptions_witness :
  let net := Sample.serving Sample.article_page in
  result (get_all_download_links net Sample.urljoin_invalid
            Sample.article_url ∅) = inl ValueError
  /\ exists resp,
       fetched net Sample.article_url resp
       /\ ((ValueError = KeyError (Py.lit "href")
            /\ exists pdf_tag,
                 Bs4.find_class [Py.lit "a"] pdf_marker (Http.soup resp)
                 = Some pdf_tag
                 /\ Bs4.get_href pdf_tag = None)
           \/ (ValueError = ValueError
               /\ exists a h,
                    a ∈ Bs4.descendants (Http.soup resp)
                    /\ Bs4.get_href a = Some h
                    /\ Sample.urljoin_invalid Sample.article_url h = None)).
Proof.
  intros net.
  assert (result (get_all_download_links net Sample.urljoin_invalid
                    Sample.article_url ∅) = inl ValueError)
    as H by reflexivity.
  split; [exact H|].
  exact (links_exceptions net Sample.urljoin_invalid
           Sample.article_url ∅ _ H).
Defined.

(** *** More on download_file *)

Section DownloadMore.

Variable net : Http.network.

Implicit Types fs : Os.filesystem.

Lemma get_body_run url fs :
  get_body net url fs
  = match Http.get net url true with
    | (inl e, reqs) => Run (inl e) fs reqs
    | (inr resp, reqs) =>
        match Http.raise_for_status resp with
        | inl e => Run (inl e) fs reqs
        | inr _ => Run (inr resp) fs reqs
        end
    end.
Proof.
  unfold get_body.
  destruct (Http.get net url true) as [[e|resp] reqs] eqn:Hget; [run_solve|].
  destruct (Http.raise_for_status resp) as [e|[]] eqn:Hst; run_solve.
Qed.

Lemma write_chunks_content fs k d chunks :
  fs !! k = Some (Os.File d) ->
  fold_left (fun fs' c => Os.write fs' k c) chunks fs !! k
  = Some (Os.File (d ++ concat chunks)).
Proof.
  revert fs d. induction chunks as [|c r IH]; intros fs d Hk; simpl.
  - by rewrite app_nil_r.
  - rewrite (IH _ (d ++ c)); [by rewrite app_assoc|].
    unfold Os.write. by rewrite lookup_alter_eq, Hk.
Qed.

(** [open] is reached for a path that is not there: it makes a new node. *)
Lemma open_wb_fresh fs fs' p k :
  Os.exists_ fs p = false -> Os.open_wb fs p = inr (fs', k) ->
  fs !! k = None.
Proof.
  intros Hex Hopen. pose proof (open_wb_key _ _ _ _ Hopen) as [-> _].
  unfold Os.open_wb in Hopen. destruct p as [|c p]; [done|].
  destruct (Py.endswith [Os.slash] (c :: p)) eqn:Hend; [done|].
  destruct (Os.walk fs [] (removelast (Os.key (c :: p)))) as [[|?]|] eqn:Hw;
    [|done..].
  destruct (Os.node_at fs (Os.key (c :: p))) as [[|d]|] eqn:Hn; [done| |].
  - exfalso. apply bool_decide_eq_false in Hex. apply Hex.
    assert (Os.key (c :: p) <> []) as Hne.
    { intros E. rewrite E in Hn. done. }
    unfold Os.stat. rewrite (walk_last _ _ Hne), Hw, Hn, Hend. eauto.
  - rewrite <- node_at_lookup; [done|].
    apply (node_at_not_dir_lookup fs). by rewrite Hn.
Qed.

Lemma download_file_skips url dest_folder file_prefix base_filename fs :
  Os.makedirs fs dest_folder = inr fs ->
  Os.exists_ fs (local_path url dest_folder file_prefix base_filename) = true ->
  download_file net url dest_folder file_prefix base_filename fs
  = Run (inr true) fs
        [Log INFO (MsgExists (local_filename url file_prefix base_filename))].
Proof.
  intros Hmk Hex. rewrite download_file_run. cbv zeta.
  unfold local_path in Hex. by rewrite Hmk, Hex.
Qed.

Lemma download_file_adds_only url dest_folder file_prefix base_filename fs :
  fs ⊆ disk (download_file net url dest_folder file_prefix base_filename fs).
Proof.
  rewrite download_file_run. cbv zeta.
  destruct (Os.makedirs fs dest_folder) as [e|fs1] eqn:Hmk; [done|].
  pose proof (makedirs_subseteq _ _ _ Hmk) as H1.
  destruct (Os.exists_ fs1 _) eqn:Hex; [done|].
  destruct (Http.get net url true) as [[e|r] reqs]; [done|].
  destruct (Http.raise_for_status r); [done|].
  destruct (Os.open_wb fs1 _) as [e|[fs2 f]] eqn:Hopen; [done|].
  pose proof (open_wb_fresh _ _ _ _ Hex Hopen) as Hfresh.
  apply open_wb_key in Hopen as [_ ->].
  assert (fs1 ⊆ fold_left (fun d c => Os.write d f c) (Http.chunks r)
                          (<[f := Os.File []]> fs1)) as H2.
  { apply map_subseteq_spec. intros k x Hk.
    assert (k <> f) as Hne by (intros ->; congruence).
    by rewrite write_chunks_other, lookup_insert_ne. }
  destruct (Http.truncated r); cbn [disk]; by etrans.
Qed.

End DownloadMore.

(** X10.  A download that goes through: the directory is there or made,
    the file is not on disk yet, the server answers with a status below
    400, the file can be opened and the stream does not break.  Then
    [download_file] returns [True], the file holds the chunks in the order
    they came, and what happened is the log record, the requests and the
    pause of 3 to 6 seconds. *)
Theorem download_writes_body (net : Http.network)
    (url dest_folder file_prefix base_filename : str)
    (fs fs1 fs2 : Os.filesystem) (r : Http.response) (f : list str) :
  let path := local_path url dest_folder file_prefix base_filename in
  let out := download_file net url dest_folder file_prefix base_filename fs in
  Os.makedirs fs dest_folder = inr fs1 ->
  Os.exists_ fs1 path = false ->
  result (get_body net url fs1) = inr r ->
  Os.open_wb fs1 path = inr (fs2, f) ->
  Http.truncated r = false ->
  result out = inr true
  /\ disk out !! Os.key path = Some (Os.File (concat (Http.chunks r)))
  /\ Os.exists_ (disk out) path = true
  /\ events out
     = Log INFO (MsgDownloading
                   (local_filename url file_prefix base_filename) dest_folder)
       :: events (get_body net url fs1) ++ [Sleep 3 6].
Proof.
  intros path out Hmk Hex Hbody Hopen Htr. subst out.
  rewrite get_body_run in *. rewrite download_file_run. cbv zeta.
  unfold path, local_path in *. rewrite Hmk, Hex.
  destruct (Http.get net url true) as [[e|r'] reqs]; [done|].
  destruct (Http.raise_for_status r') as [e|[]]; [done|].
  injection Hbody as ->. rewrite Hopen, Htr. cbn [result disk events].
  pose proof (open_wb_exists _ _ _ _ Hopen) as Hex2.
  apply open_wb_key in Hopen as [-> ->].
  split; [done|]. split; [|split; [|done]].
  - by rewrite (write_chunks_content _ _ []) by apply lookup_insert_eq.
  - eapply exists_extends; [apply write_chunks_extends | exact Hex2].
Qed.

(** X11.  When the file cannot be fetched, because [session.get] raises or
    the status is an error, [download_file] returns [False] after logging
    the download and the error; the file is not opened, so the derived path
    is as absent as before. *)
Theorem download_fetch_failure (net : Http.network)
    (url dest_folder file_prefix base_filename : str)
    (fs fs1 : Os.filesystem) (e : exn) :
  let path := local_path url dest_folder file_prefix base_filename in
  let out := download_file net url dest_folder file_prefix base_filename fs in
  Os.makedirs fs dest_folder = inr fs1 ->
  Os.exists_ fs1 path = false ->
  result (get_body net url fs1) = inl e ->
  result out = inr false
  /\ events out
     = Log INFO (MsgDownloading
                   (local_filename url file_prefix base_filename) dest_folder)
       :: events (get_body net url fs1)
       ++ [Log ERROR (MsgDownloadFailed url e)]
  /\ Os.exists_ (disk out) path = false.
Proof.
  intros path out Hmk Hex Hbody. subst out.
  rewrite get_body_run in *. rewrite download_file_run. cbv zeta.
  unfold path, local_path in *. rewrite Hmk, Hex.
  destruct (Http.get net url true) as [[e'|r] reqs].
  - by injection Hbody as ->.
  - destruct (Http.raise_for_status r) as [e'|[]]; [|done].
    by injection Hbody as ->.
Qed.

(** X12.  When the stream breaks, [download_file] returns [False], yet the
    file stays on disk with the chunks that had arrived; the next call for
    the same file finds it, returns [True] and asks the server nothing. *)
Theorem download_broken_stream (net net' : Http.network)
    (url dest_folder file_prefix base_filename : str)
    (fs fs1 fs2 : Os.filesystem) (r : Http.response) (f : list str) :
  let path := local_path url dest_folder file_prefix base_filename in
  let out := download_file net url dest_folder file_prefix base_filename fs in
  Os.makedirs fs dest_folder = inr fs1 ->
  Os.exists_ fs1 path = false ->
  result (get_body net url fs1) = inr r ->
  Os.open_wb fs1 path = inr (fs2, f) ->
  Http.truncated r = true ->
  result out = inr false
  /\ disk out !! Os.key path = Some (Os.File (concat (Http.chunks r)))
  /\ download_file net' url dest_folder file_prefix base_filename (disk out)
     = Run (inr true) (disk out)
           [Log INFO (MsgExists (local_filename url file_prefix base_filename))].
Proof.
  intros path out Hmk Hex Hbody Hopen Htr. subst out.
  rewrite get_body_run in *. rewrite download_file_run. cbv zeta.
  unfold path, local_path in *. rewrite Hmk, Hex.
  destruct (Http.get net url true) as [[e|r'] reqs]; [done|].
  destruct (Http.raise_for_status r') as [e|[]]; [done|].
  injection Hbody as ->. rewrite Hopen, Htr. cbn [result disk events].
  pose proof (open_wb_exists _ _ _ _ Hopen) as Hex2.
  pose proof (open_wb_extends _ _ _ _ Hopen) as Hext.
  pose proof (write_chunks_extends fs2 f (Http.chunks r)) as Hext2.
  apply open_wb_key in Hopen as [-> ->].
  split; [done|]. split.
  - by rewrite (write_chunks_content _ _ []) by apply lookup_insert_eq.
  - apply download_file_skips.
    + eapply makedirs_again; [exact Hmk|]. by eapply extends_trans.
    + unfold local_path. by eapply exists_extends.
Qed.

(** X13.  The log file apart, [download_file] only adds to the disk:
    whatever the server does and however the call ends, every other file
    and every directory that was there is still there, unchanged. *)
Theorem download_file_keeps_disk (net : Http.network)
    (url dest_folder file_prefix base_filename : str) (fs : Os.filesystem) :
  keeps_files fs
    (disk (download_file net url dest_folder file_prefix base_filename fs)).
Proof.
  intros k i _ Hk. eapply lookup_weaken; [exact Hk|].
  apply download_file_adds_only.
Qed.

Lemma download_writes_body_witness :
  let url := Sample.pdf_url in
  let dest := Py.lit "out" in
  let path := local_path url dest (Py.lit "PDF_") (Py.lit "t") in
  let fs1 : Os.filesystem := {[ [Py.lit "out"] := Os.Dir ]} in
  let r := Sample.body [[Byte.x25; Byte.x50]; [Byte.x44; Byte.x46]] in
  let out := download_file Sample.one_article url dest (Py.lit "PDF_")
               (Py.lit "t") ∅ in
  (Os.makedirs ∅ dest = inr fs1
   /\ Os.exists_ fs1 path = false
   /\ result (get_body Sample.one_article url fs1) = inr r
   /\ Os.open_wb fs1 path
      = inr (<[Os.key path := Os.File []]> fs1, Os.key path)
   /\ Http.truncated r = false)
  /\ result out = inr true
  /\ disk out !! [Py.lit "out"; Py.lit "PDF_t.pdf"]
     = Some (Os.File [Byte.x25; Byte.x50; Byte.x44; Byte.x46]).
Proof.
  intros url dest path fs1 r out.
  assert (Os.makedirs ∅ dest = inr fs1) as Hmk by reflexivity.
  assert (Os.exists_ fs1 path = false) as Hex by reflexivity.
  assert (result (get_body Sample.one_article url fs1) = inr r) as Hbody
    by reflexivity.
  assert (Os.open_wb fs1 path
          = inr (<[Os.key path := Os.File []]> fs1, Os.key path)) as Hopen
    by reflexivity.
  assert (Http.truncated r = false) as Htr by reflexivity.
  split; [by repeat split|].
  destruct (download_writes_body Sample.one_article url dest (Py.lit "PDF_")
              (Py.lit "t") ∅ fs1 _ r _ Hmk Hex Hbody Hopen Htr)
    as (Hres & Hfile & _ & _).
  split; [exact Hres | exact Hfile].
Defined.

Lemma download_fetch_failure_witness :
  let url := Sample.pdf_url in
  let dest := Py.lit "out" in
  let fs1 : Os.filesystem := {[ [Py.lit "out"] := Os.Dir ]} in
  (Os.makedirs ∅ dest = inr fs1
   /\ Os.exists_ fs1 (local_path url dest (Py.lit "PDF_") (Py.lit "t")) = false
   /\ result (get_body (Sample.always 404) url fs1) = inl (HTTPError 404))
  /\ result (download_file (Sample.always 404) url dest (Py.lit "PDF_")
               (Py.lit "t") ∅) = inr false
  /\ events (download_file (Sample.always 404) url dest (Py.lit "PDF_")
               (Py.lit "t") ∅)
     = [Log INFO (MsgDownloading (Py.lit "PDF_t.pdf") dest);
        Request url true;
        Log ERROR (MsgDownloadFailed url (HTTPError 404))]
  /\ Os.exists_ (disk (download_file (Sample.always 404) url dest
                         (Py.lit "PDF_") (Py.lit "t") ∅))
                (local_path url dest (Py.lit "PDF_") (Py.lit "t")) = false.
Proof.
  intros url dest fs1.
  assert (Os.makedirs ∅ dest = inr fs1) as Hmk by reflexivity.
  assert (Os.exists_ fs1 (local_path url dest (Py.lit "PDF_") (Py.lit "t"))
          = false) as Hex by reflexivity.
  assert (result (get_body (Sample.always 404) url fs1) = inl (HTTPError 404))
    as Hbody by reflexivity.
  split; [by repeat split|].
  exact (download_fetch_failure (Sample.always 404) url dest (Py.lit "PDF_")
           (Py.lit "t") ∅ fs1 _ Hmk Hex Hbody).
Defined.

Lemma download_broken_stream_witness :
  let url := Sample.pdf_url in
  let dest := Py.lit "out" in
  let path := local_path url dest (Py.lit "PDF_") (Py.lit "t") in
  let fs1 : Os.filesystem := {[ [Py.lit "out"] := Os.Dir ]} in
  let out := download_file Sample.breaking url dest (Py.lit "PDF_")
               (Py.lit "t") ∅ in
  (Os.makedirs ∅ dest = inr fs1
   /\ Os.exists_ fs1 path = false
   /\ Os.open_wb fs1 path
      = inr (<[Os.key path := Os.File []]> fs1, Os.key path))
  /\ result out = inr false
  /\ disk out !! [Py.lit "out"; Py.lit "PDF_t.pdf"]
     = Some (Os.File [Byte.x25; Byte.x50])
  /\ download_file Sample.unreachable url dest (Py.lit "PDF_") (Py.lit "t")
                   (disk out)
     = Run (inr true) (disk out) [Log INFO (MsgExists (Py.lit "PDF_t.pdf"))].
Proof.
  intros url dest path fs1 out.
  assert (Os.makedirs ∅ dest = inr fs1) as Hmk by reflexivity.
  assert (Os.exists_ fs1 path = false) as Hex by reflexivity.
  assert (Os.open_wb fs1 path
          = inr (<[Os.key path := Os.File []]> fs1, Os.key path)) as Hopen
    by reflexivity.
  split; [by repeat split|].
  exact (download_broken_stream Sample.breaking Sample.unreachable url dest
           (Py.lit "PDF_") (Py.lit "t") ∅ fs1 _ _ _ Hmk Hex eq_refl Hopen
           eq_refl).
Defined.

(** *** The pieces of the script, run after run *)

Section Pieces.

Context {A B : Type}.


Lemma pure_adds_only (m : M A) : pure_run m -> adds_only m.
Proof. intros (res & evs & _ & Hm) fs. by rewrite Hm. Qed.

Lemma adds_only_bind (m : M A) (f : A -> M B) :
  adds_only m -> (forall a, adds_only (f a)) -> adds_only (m ≫= f).
Proof.
  intros Hm Hf fs. unfold mbind, M_bind.
  destruct (result (m fs)) as [e|a]; cbn [disk]; [apply Hm|].
  etrans; [apply Hm | apply Hf].
Qed.

Lemma adds_only_try_except (body : M A) catches handler :
  adds_only body -> (forall e, adds_only (handler e)) ->
  adds_only (try_except body catches handler).
Proof.
  intros Hb Hh fs. unfold try_except.
  destruct (result (body fs)) as [e|a]; [|apply Hb].
  destruct (catches e); [|apply Hb].
  cbn [disk]. etrans; [apply Hb | apply Hh].
Qed.

End Pieces.

Lemma pure_log lvl msg : pure_run (log lvl msg).
Proof. by exists (inr tt), [Log lvl msg]. Qed.

Lemma pure_sleep lo hi : pure_run (sleep_uniform lo hi).
Proof. by exists (inr tt), [Sleep lo hi]. Qed.

Lemma pure_getitem_href n : pure_run (getitem_href n).
Proof.
  unfold getitem_href. destruct (Bs4.get_href n);
    [apply pure_ret | apply pure_raise].
Qed.


Section ScriptPieces.

Variable net : Http.network.
Variable urljoin : str -> str -> option str.

Lemma pure_session_get url : pure_run (session_get net url false).
Proof.
  eexists _, (snd (Http.get net url false)). split.
  - unfold Http.get.
    destruct (urlopen_shape net Http.retry_strategy (Py.lit "GET") url false
                (Http.total Http.retry_strategy) 0) as (k & _ & -> & _).
    apply no_downloads_replicate.
  - intros fs. apply session_get_run.
Qed.

Lemma pure_call_urljoin base url : pure_run (call_urljoin urljoin base url).
Proof.
  unfold call_urljoin. destruct (urljoin base url);
    [apply pure_ret | apply pure_raise].
Qed.

Lemma pure_extract_links url page : pure_run (extract_links urljoin url page).
Proof.
  eexists _, []. split; [done|]. intros fs. apply extract_links_run.
Qed.

Lemma pure_get_all_download_links url :
  pure_run (get_all_download_links net urljoin url).
Proof.
  unfold get_all_download_links.
  apply pure_bind; [apply pure_log | intros _].
  apply pure_try_except.
  - apply pure_bind; [apply pure_session_get | intros resp].
    apply pure_bind; [apply pure_lift_exn | intros _].
    apply pure_bind; [apply pure_extract_links | intros links].
    apply pure_bind; [apply pure_sleep | intros _]. apply pure_ret.
  - intros e. apply pure_bind; [apply pure_log | intros _]. apply pure_ret.
Qed.

Lemma pure_fetch_collection : pure_run (fetch_collection net).
Proof.
  unfold fetch_collection. apply pure_try_except.
  - apply pure_bind; [apply pure_log | intros _].
    apply pure_bind; [apply pure_session_get | intros resp].
    apply pure_bind; [apply pure_lift_exn | intros _]. apply pure_ret.
  - intros e. apply pure_bind; [apply pure_log | intros _]. apply pure_ret.
Qed.




Lemma download_kind_adds_only links kind folder file_prefix base_filename :
  adds_only (download_kind net links kind folder file_prefix base_filename).
Proof.
  unfold download_kind. destruct (links !! kind).
  - apply adds_only_bind; [intros fs; apply download_file_adds_only|].
    intros _. apply pure_adds_only, pure_ret.
  - apply pure_adds_only, pure_ret.
Qed.


Lemma process_article_adds_only article :
  adds_only (process_article net urljoin article).
Proof.
  unfold process_article.
  destruct (Bs4.find_class _ _ article) as [title_tag|];
    [|apply pure_adds_only, pure_ret].
  destruct (Bs4.find_name _ title_tag) as [title_a|];
    [|apply pure_adds_only, pure_ret].
  apply adds_only_bind; [apply pure_adds_only, pure_getitem_href | intros h].
  apply adds_only_bind; [apply pure_adds_only, pure_call_urljoin | intros link].
  apply adds_only_bind;
    [apply pure_adds_only, pure_get_all_download_links | intros links].
  destruct (bool_decide (links = ∅)).
  - apply pure_adds_only.
    apply pure_bind; [apply pure_log | intros _]. apply pure_ret.
  - apply adds_only_bind; [apply pure_adds_only, pure_log | intros _].
    apply adds_only_bind; [apply download_kind_adds_only | intros _].
    apply adds_only_bind; [apply download_kind_adds_only | intros _].
    apply adds_only_bind; [apply download_kind_adds_only | intros _].
    apply pure_adds_only, pure_ret.
Qed.

Lemma pure_after_article (finished : bool) :
  pure_run (if finished then log INFO MsgPause;; sleep_uniform 8 15
            else mret tt).
Proof.
  destruct finished; [|apply pure_ret].
  apply pure_bind; [apply pure_log | intros _]. apply pure_sleep.
Qed.


Lemma article_step_adds_only article :
  adds_only (article_step net urljoin article).
Proof.
  unfold article_step. apply adds_only_bind.
  - apply adds_only_try_except; [apply process_article_adds_only|].
    intros e. apply pure_adds_only.
    apply pure_bind; [apply pure_log | intros _]. apply pure_ret.
  - intros finished. apply pure_adds_only, pure_after_article.
Qed.


Lemma for_articles_adds_only articles :
  adds_only (for_articles net urljoin articles).
Proof.
  induction articles as [|a rest IH]; simpl.
  - apply pure_adds_only, pure_ret.
  - apply adds_only_bind; [apply article_step_adds_only | by intros _].
Qed.


Lemma main_adds_only : adds_only (main net urljoin).
Proof.
  unfold main.
  apply adds_only_bind; [apply pure_adds_only, pure_log | intros _].
  apply adds_only_bind; [apply pure_adds_only, pure_fetch_collection|].
  intros [resp|]; [|apply pure_adds_only, pure_ret].
  destruct (find_articles (Http.soup resp)) as [|a rest];
    [apply pure_adds_only, pure_log|].
  apply adds_only_bind; [apply pure_adds_only, pure_log | intros _].
  apply adds_only_bind; [apply for_articles_adds_only | intros _].
  apply pure_adds_only, pure_log.
Qed.

End ScriptPieces.




(** X15.  The log file apart, [main] only adds to the disk: whatever the
    server answers, every other file and every directory that was there
    before the crawl is there after it, unchanged. *)
Theorem main_keeps_disk (net : Http.network)
    (urljoin : str -> str -> option str) (fs : Os.filesystem) :
  keeps_files fs (disk (main net urljoin fs)).
Proof.
  intros k i _ Hk. eapply lookup_weaken; [exact Hk|]. apply main_adds_only.
Qed.

(** *** The ways through one article and through main *)

Section ArticleWays.

Variable net : Http.network.
Variable urljoin : str -> str -> option str.

Lemma join_relative (a b : str) :
  a <> [] -> Py.endswith [Os.slash] a = false ->
  Py.startswith [Os.slash] b = false ->
  Os.join a b = a ++ [Os.slash] ++ b.
Proof.
  intros Ha He Hb. unfold Os.join. rewrite Hb, He.
  by rewrite bool_decide_eq_false_2.
Qed.

Lemma endswith_snoc (c : N) (s : str) (x : N) :
  Py.endswith [c] (s ++ [x]) = (c =? x)%N.
Proof.
  unfold Py.endswith. rewrite rev_app_distr. simpl. by rewrite andb_true_r.
Qed.

Lemma sanitize_no_slash name : Os.slash ∉ sanitize_filename name.
Proof.
  unfold sanitize_filename, Py.strip. cbv zeta.
  assert (Forall (fun c => c ∉ illegal_chars)
            (take 180 (Py.strip_by Py.isspace (Py.sub_spaces false
               (Py.sub_class illegal_chars underscore name))))) as H.
  { apply Forall_take, strip_by_Forall, sub_spaces_Forall.
    - apply isspace_not_illegal. reflexivity.
    - apply sub_class_Forall. apply mem_false. reflexivity. }
  intros Hin. rewrite Forall_forall in H. apply (H _ Hin).
  apply mem_true. reflexivity.
Qed.

End ArticleWays.

(** X16.  The shape of the paths of an article.  With a collection name
    that is not empty and does not end in a slash, and a prefix that is not
    empty and does not start with a slash, the folder is the collection
    name, a slash and the sanitized title, and the path of a file is the
    folder, a slash unless the title is empty, the prefix, the title, a dot
    and the extension.  A title that starts with a slash does not turn the
    path into an absolute one: [sanitize_filename] leaves no slash. *)
Theorem article_paths_inside_collection
    (collection_name raw_title url file_prefix : str) :
  let title := sanitize_filename raw_title in
  let folder := article_folder collection_name title in
  collection_name <> [] ->
  Py.endswith [Os.slash] collection_name = false ->
  file_prefix <> [] ->
  Py.startswith [Os.slash] file_prefix = false ->
  folder = collection_name ++ [Os.slash] ++ title
  /\ local_path url folder file_prefix title
     = folder ++ (if bool_decide (title = []) then [] else [Os.slash])
       ++ file_prefix ++ title ++ [dot] ++ extension url.
Proof.
  intros title folder Hne Hend Hpre Hstart.
  pose proof (sanitize_no_slash raw_title) as Hslash. fold title in Hslash.
  assert (folder = collection_name ++ [Os.slash] ++ title) as Hfolder.
  { unfold folder, article_folder. apply join_relative; [done..|].
    destruct title as [|c t]; [done|].
    assert (Os.slash <> c) as Hc by (intros <-; destruct Hslash; by left).
    cbn [Py.startswith]. by rewrite (proj2 (N.eqb_neq _ _) Hc). }
  split; [exact Hfolder|].
  unfold local_path, local_filename, Os.join.
  assert (Py.startswith [Os.slash]
            (file_prefix ++ title ++ [dot] ++ extension url) = false) as ->.
  { destruct file_prefix as [|c p]; [done|]. exact Hstart. }
  assert (bool_decide (folder = []) = false) as ->.
  { apply bool_decide_eq_false_2. rewrite Hfolder. by destruct collection_name. }
  simpl. case_bool_decide as Ht.
  - rewrite Hfolder, Ht. rewrite app_nil_r.
    rewrite (endswith_snoc Os.slash collection_name Os.slash). reflexivity.
  - destruct (exists_last Ht) as (t & c & Hc).
    rewrite Hfolder, Hc.
    replace (collection_name ++ [Os.slash] ++ t ++ [c])
      with ((collection_name ++ [Os.slash] ++ t) ++ [c])
      by (by rewrite <- !app_assoc).
    rewrite endswith_snoc.
    destruct (Os.slash =? c)%N eqn:E.
    + apply N.eqb_eq in E. subst c. destruct Hslash. rewrite Hc.
      apply elem_of_app. right. by left.
    + by rewrite <- !app_assoc.
Qed.

Lemma article_paths_inside_collection_witness :
  let title := sanitize_filename (Py.lit "/etc/passwd") in
  let folder := article_folder collection_name title in
  (collection_name <> []
   /\ Py.endswith [Os.slash] collection_name = false
   /\ Py.lit "PDF_" <> []
   /\ Py.startswith [Os.slash] (Py.lit "PDF_") = false)
  /\ folder = Py.lit "Nature Collection gxfyskqtkm/_etc_passwd"
  /\ local_path Sample.pdf_url folder (Py.lit "PDF_") title
     = Py.lit "Nature Collection gxfyskqtkm/_etc_passwd/PDF__etc_passwd.pdf".
Proof.
  intros title folder.
  assert (collection_name <> []) as H1 by discriminate.
  assert (Py.endswith [Os.slash] collection_name = false) as H2 by reflexivity.
  assert (Py.lit "PDF_" <> []) as H3 by discriminate.
  assert (Py.startswith [Os.slash] (Py.lit "PDF_") = false) as H4
    by reflexivity.
  split; [by repeat split|].
  destruct (article_paths_inside_collection collection_name
              (Py.lit "/etc/passwd") Sample.pdf_url (Py.lit "PDF_")
              H1 H2 H3 H4) as [Hfolder Hpath].
  split; [exact (eq_trans Hfolder eq_refl) | exact (eq_trans Hpath eq_refl)].
Defined.

(** X17.  An entry of the collection page without a title element of class
    [c-card__title], or whose title holds no anchor, is passed over in
    silence: no request, no log record, no pause, and the disk stays as it
    is. *)
Theorem untitled_entry_is_skipped (net : Http.network)
    (urljoin : str -> str -> option str) (article : Bs4.node) (fs : Os.filesystem) :
  match Bs4.find_class [Py.lit "h3"; Py.lit "h2"] (Py.lit "c-card__title")
                       article with
  | None => True
  | Some title_tag => Bs4.find_name (Py.lit "a") title_tag = None
  end ->
  article_step net urljoin article fs = Run (inr tt) fs [].
Proof.
  intros H. unfold article_step, process_article.
  destruct (Bs4.find_class _ _ article) as [title_tag|]; [rewrite H|];
    run_solve.
Qed.

Lemma untitled_entry_is_skipped_witness :
  let entry := Bs4.Tag (Py.lit "article") [Py.lit "c-card"] None
                 [Bs4.Tag (Py.lit "h3") [Py.lit "c-card__title"] None
                    [Bs4.NavigableString (Py.lit "Editorial")]] in
  (exists title_tag,
     Bs4.find_class [Py.lit "h3"; Py.lit "h2"] (Py.lit "c-card__title") entry
     = Some title_tag
     /\ Bs4.find_name (Py.lit "a") title_tag = None)
  /\ article_step Sample.one_article Sample.urljoin_absolute entry ∅
     = Run (inr tt) ∅ [].
Proof.
  intros entry. split; [eexists; split; reflexivity|].
  apply (untitled_entry_is_skipped Sample.one_article Sample.urljoin_absolute
           entry ∅).
  reflexivity.
Defined.

(** X18.  A title anchor without [href] makes line 171 raise [KeyError];
    the loop catches it: the round logs the error and ends, with no request
    and no pause. *)
Theorem title_without_href_is_logged (net : Http.network)
    (urljoin : str -> str -> option str) (article title_tag title_a : Bs4.node)
    (fs : Os.filesystem) :
  Bs4.find_class [Py.lit "h3"; Py.lit "h2"] (Py.lit "c-card__title") article
  = Some title_tag ->
  Bs4.find_name (Py.lit "a") title_tag = Some title_a ->
  Bs4.get_href title_a = None ->
  article_step net urljoin article fs
  = Run (inr tt) fs [Log ERROR (MsgUnknown (KeyError (Py.lit "href")))].
Proof.
  intros Ht Ha Hh. unfold article_step, process_article.
  rewrite Ht, Ha. run_solve.
Qed.

Lemma title_without_href_is_logged_witness :
  let entry := Sample.card_without_href "Paper Zero" in
  (exists title_tag title_a,
     Bs4.find_class [Py.lit "h3"; Py.lit "h2"] (Py.lit "c-card__title") entry
     = Some title_tag
     /\ Bs4.find_name (Py.lit "a") title_tag = Some title_a
     /\ Bs4.get_href title_a = None)
  /\ article_step Sample.one_article Sample.urljoin_absolute entry ∅
     = Run (inr tt) ∅ [Log ERROR (MsgUnknown (KeyError (Py.lit "href")))].
Proof.
  intros entry. split; [eexists _, _; repeat split; reflexivity|].
  eapply (title_without_href_is_logged Sample.one_article
            Sample.urljoin_absolute entry _ _ ∅); reflexivity.
Defined.

(** X19.  When [get_all_download_links] returns the empty dict, be it that
    the page has no link of the three kinds or that the page could not be
    fetched, the round logs the warning of line 179 and ends: no download
    is asked for, and there is no pause before the next article. *)
Theorem article_without_links (net : Http.network)
    (urljoin : str -> str -> option str) (article title_tag title_a : Bs4.node)
    (h article_link : str) (fs : Os.filesystem) :
  let links := get_all_download_links net urljoin article_link fs in
  let step := article_step net urljoin article fs in
  Bs4.find_class [Py.lit "h3"; Py.lit "h2"] (Py.lit "c-card__title") article
  = Some title_tag ->
  Bs4.find_name (Py.lit "a") title_tag = Some title_a ->
  Bs4.get_href title_a = Some h ->
  urljoin base_site h = Some article_link ->
  result links = inr ∅ ->
  result step = inr tt
  /\ events step
     = events links ++ [Log WARNING (MsgNoLinks (Bs4.get_text_strip title_a))]
  /\ no_downloads (events step).
Proof.
  intros links step Ht Ha Hh Hu Hempty. subst links step.
  pose proof (get_all_download_links_events net urljoin article_link fs) as Hnd.
  destruct (pure_get_all_download_links net urljoin article_link)
    as (res & evs & _ & Hrun).
  rewrite Hrun in Hempty, Hnd |- *. cbn [result events] in *. subst res.
  pose proof (Hrun fs) as Hfs.
  assert (article_step net urljoin article fs
          = Run (inr tt) fs
                (evs ++ [Log WARNING (MsgNoLinks (Bs4.get_text_strip title_a))]))
    as ->.
  { unfold article_step, process_article. rewrite Ht, Ha.
    eapply bind_seq.
    - eapply try_returns.
      eapply bind_seq; [prim | | lists].
      eapply bind_seq; [unfold call_urljoin; by rewrite Hu | | lists].
      eapply bind_seq; [exact Hfs | | reflexivity].
      cbv beta. rewrite bool_decide_eq_true_2 by done. run_solve.
    - reflexivity.
    - lists. }
  cbn [result events]. split; [done|]. split; [done|].
  apply no_downloads_app. by split.
Qed.

Lemma article_without_links_witness :
  let net := Sample.serving (Sample.document []) in
  let entry := Sample.card "https://www.nature.com/articles/s1" "Paper One" in
  let links := get_all_download_links net Sample.urljoin_absolute
                 Sample.article_url ∅ in
  result links = inr ∅
  /\ result (article_step net Sample.urljoin_absolute entry ∅) = inr tt
  /\ events (article_step net Sample.urljoin_absolute entry ∅)
     = [Log INFO (MsgParsing Sample.article_url);
        Request Sample.article_url false;
        Sleep 2 4;
        Log WARNING (MsgNoLinks (Py.lit "Paper One"))].
Proof.
  intros net entry links.
  assert (result links = inr ∅) as H by reflexivity.
  split; [exact H|].
  destruct (article_without_links net Sample.urljoin_absolute entry _ _
              Sample.article_url Sample.article_url ∅ eq_refl eq_refl eq_refl
              eq_refl H) as (Hres & Hev & _).
  split; [exact Hres | exact Hev].
Defined.

(** X20.  When the collection page arrives but holds no [article] element
    of class [u-full-height] or [c-card], [main] logs the warning of line
    158 and returns: no article page is asked for. *)
Theorem main_without_articles (net : Http.network)
    (urljoin : str -> str -> option str) (fs : Os.filesystem)
    (resp : Http.response) :
  result (get_collection net fs) = inr resp ->
  find_articles (Http.soup resp) = [] ->
  result (main net urljoin fs) = inr tt
  /\ events (main net urljoin fs)
     = Log INFO (MsgStart collection_name)
       :: Log INFO (MsgVisit collection_url)
       :: events (get_collection net fs) ++ [Log WARNING MsgNoArticles].
Proof.
  intros Hresp Hnone. rewrite main_run. cbv zeta. by rewrite Hresp, Hnone.
Qed.

Lemma main_without_articles_witness :
  let net := Sample.serving (Sample.document []) in
  (result (get_collection net ∅) = inr (Sample.page 200 (Sample.document []))
   /\ find_articles (Sample.document []) = [])
  /\ result (main net Sample.urljoin_absolute ∅) = inr tt
  /\ events (main net Sample.urljoin_absolute ∅)
     = [Log INFO (MsgStart collection_name);
        Log INFO (MsgVisit collection_url);
        Request collection_url false;
        Log WARNING MsgNoArticles].
Proof.
  intros net.
  assert (result (get_collection net ∅)
          = inr (Sample.page 200 (Sample.document []))) as H by reflexivity.
  split; [split; [exact H | reflexivity]|].
  exact (main_without_articles net Sample.urljoin_absolute ∅ _ H eq_refl).
Defined.

Section FolderFacts.

Variable net : Http.network.
Variable urljoin : str -> str -> option str.

Lemma links_without_kinds (links : gmap str str) :
  dom links ⊆ link_kinds ->
  links !! Py.lit "pdf" = None -> links !! Py.lit "supp" = None ->
  links !! Py.lit "peer" = None -> links = ∅.
Proof.
  intros Hdom Hp Hs Hr. apply map_empty. intros k.
  destruct (links !! k) as [u|] eqn:Hk; [|done]. exfalso.
  assert (k ∈ link_kinds) as Hin.
  { apply Hdom, elem_of_dom. eauto. }
  unfold link_kinds in Hin.
  apply elem_of_union in Hin as [Hin|Hin];
    [apply elem_of_union in Hin as [Hin|Hin]|];
    apply elem_of_singleton in Hin; subst k; congruence.
Qed.

(** The three downloads of an article whose folder cannot be made: the
    first one that is due raises. *)
Lemma downloads_without_folder (links : gmap str str) (folder title : str)
    (fs : Os.filesystem) (e : exn) :
  dom links ⊆ link_kinds -> links <> ∅ ->
  Os.makedirs fs folder = inl e ->
  (download_kind net links (Py.lit "pdf") folder (Py.lit "PDF_") title;;
   download_kind net links (Py.lit "supp") folder (Py.lit "Supp_") title;;
   download_kind net links (Py.lit "peer") folder (Py.lit "PeerReview_") title;;
   mret true) fs
  = Run (inl e) fs [].
Proof.
  intros Hdom Hne Hmk.
  assert (forall kind file_prefix,
    download_kind net links kind folder file_prefix title fs
    = match links !! kind with
      | Some _ => Run (inl e) fs []
      | None => Run (inr tt) fs []
      end) as Hkind.
  { intros kind file_prefix. unfold download_kind.
    destruct (links !! kind); [|done].
    apply bind_fail. by apply download_file_makedirs_error. }
  destruct (links !! Py.lit "pdf") eqn:Hp.
  { apply bind_fail. by rewrite Hkind, Hp. }
  eapply bind_seq; [by rewrite Hkind, Hp | | reflexivity].
  destruct (links !! Py.lit "supp") eqn:Hs.
  { apply bind_fail. by rewrite Hkind, Hs. }
  eapply bind_seq; [by rewrite Hkind, Hs | | reflexivity].
  destruct (links !! Py.lit "peer") eqn:Hr.
  { apply bind_fail. by rewrite Hkind, Hr. }
  destruct Hne. by apply links_without_kinds.
Qed.

End FolderFacts.

(** X21.  A regular file stands where the folder of an article, or a
    directory above it, should be, so that [os.makedirs] raises before it
    has made anything.  Then the first download raises out of
    [download_file] and the loop catches it: the article is logged as
    failed, and none of its files is asked for. *)
Theorem unwritable_folder_stops_article (net : Http.network)
    (urljoin : str -> str -> option str) (article title_tag title_a : Bs4.node)
    (h article_link : str) (links : gmap str str) (fs : Os.filesystem)
    (e : exn) :
  let found := get_all_download_links net urljoin article_link fs in
  let raw := Bs4.get_text_strip title_a in
  let step := article_step net urljoin article fs in
  Bs4.find_class [Py.lit "h3"; Py.lit "h2"] (Py.lit "c-card__title") article
  = Some title_tag ->
  Bs4.find_name (Py.lit "a") title_tag = Some title_a ->
  Bs4.get_href title_a = Some h ->
  urljoin base_site h = Some article_link ->
  result found = inr links -> links <> ∅ ->
  Os.makedirs fs (article_folder collection_name (sanitize_filename raw))
  = inl e ->
  result step = inr tt
  /\ events step
     = events found
       ++ [Log INFO (MsgStartDownload raw); Log ERROR (MsgUnknown e)]
  /\ no_downloads (events step).
Proof.
  intros found raw step Ht Ha Hh Hu Hlinks Hne Hmk. subst found step.
  pose proof (returned_links_dom _ _ _ _ _ Hlinks) as Hdom.
  pose proof (get_all_download_links_events net urljoin article_link fs) as Hnd.
  destruct (pure_get_all_download_links net urljoin article_link)
    as (res & evs & _ & Hrun).
  rewrite Hrun in Hlinks, Hnd |- *. cbn [result events] in *. subst res.
  pose proof (Hrun fs) as Hfs.
  set (folder := article_folder collection_name (sanitize_filename raw)) in *.
  pose proof (downloads_without_folder net links folder (sanitize_filename raw)
                fs e Hdom Hne Hmk) as Hdown.
  assert (article_step net urljoin article fs
          = Run (inr tt) fs
                (evs ++ [Log INFO (MsgStartDownload raw);
                         Log ERROR (MsgUnknown e)])) as ->.
  { unfold article_step, process_article. rewrite Ht, Ha. fold raw. fold folder.
    eapply bind_seq.
    - eapply try_caught.
      + eapply bind_seq; [prim | | reflexivity].
        eapply bind_seq; [unfold call_urljoin; by rewrite Hu | | reflexivity].
        eapply bind_seq; [exact Hfs | | reflexivity].
        cbv beta. rewrite bool_decide_eq_false_2 by done.
        eapply bind_seq; [prim | exact Hdown | reflexivity].
      + reflexivity.
      + run_solve.
      + reflexivity.
    - reflexivity.
    - lists. }
  cbn [result events]. split; [done|]. split; [done|].
  apply no_downloads_app. by split.
Qed.

Lemma unwritable_folder_stops_article_witness :
  let net := Sample.one_article in
  let entry := Sample.card "https://www.nature.com/articles/s1" "Paper One" in
  let fs := Sample.disk_collection_is_file in
  let found := get_all_download_links net Sample.urljoin_absolute
                 Sample.article_url fs in
  (exists links, result found = inr links /\ links <> ∅)
  /\ Os.makedirs fs (article_folder collection_name
                       (sanitize_filename (Py.lit "Paper One")))
     = inl NotADirectoryError
  /\ result (article_step net Sample.urljoin_absolute entry fs) = inr tt
  /\ events (article_step net Sample.urljoin_absolute entry fs)
     = events found
       ++ [Log INFO (MsgStartDownload (Py.lit "Paper One"));
           Log ERROR (MsgUnknown NotADirectoryError)].
Proof.
  intros net entry fs found.
  assert (exists links, result found = inr links /\ links <> ∅)
    as (links & Hlinks & Hne).
  { eexists. split; [reflexivity|].
    intros H. apply (f_equal (fun m => m !! Py.lit "pdf")) in H.
    by vm_compute in H. }
  assert (Os.makedirs fs (article_folder collection_name
                            (sanitize_filename (Py.lit "Paper One")))
          = inl NotADirectoryError) as Hmk by reflexivity.
  split; [by exists links|]. split; [exact Hmk|].
  destruct (unwritable_folder_stops_article net Sample.urljoin_absolute entry
              _ _ Sample.article_url Sample.article_url links fs _ eq_refl
              eq_refl eq_refl eq_refl Hlinks Hne Hmk) as (Hres & Hev & _).
  split; [exact Hres | exact Hev].
Defined.
